(** * Muxgeist daemon: session registry, pane capture engine, request server

    A shallow embedding of [muxgeist-daemon.c].  C strings are lists of
    characters; a buffer that the code fills with raw bytes is kept as the
    bytes in front of the terminator the code wrote, and is read back as a
    C string through [cstr] (everything in front of the first NUL).  The
    external multiplexer and the clock are an explicit world that is threaded
    through every call, as [popen] and [time] are the only effects of the
    daemon besides its own globals. *)

From Stdlib Require Import ZArith Ascii String DecimalString.
From stdpp Require Import base tactics relations list strings.

Local Open Scope Z_scope.

(** ** Constants of the source *)

Definition MAX_SESSIONS : Z := 32.
Definition MAX_BUFFER_SIZE : Z := 16384.
(** From [limits.h], its value on Linux. *)
Definition PATH_MAX : Z := 4096.

Definition SIZE_MAX1 : Z := 2 ^ 64.

(** Conversion of an [int] to [size_t], and [size_t] subtraction. *)
Definition to_size_t (z : Z) : Z := z mod SIZE_MAX1.
Definition size_sub (a b : Z) : Z := (a - b) mod SIZE_MAX1.

Inductive muxgeist_error_t :=
| ERROR_NONE
| ERROR_SOCKET_CREATE
| ERROR_SOCKET_BIND
| ERROR_SOCKET_LISTEN
| ERROR_MEMORY_ALLOC
| ERROR_TMUX_CMD
| ERROR_FILE_IO
| ERROR_INVALID_SESSION
| ERROR_UNKNOWN.

(** ** C strings *)

Definition NUL : ascii := "000"%char.
Definition LF : ascii := "010"%char.
Definition COLON : ascii := ":"%char.

Definition lit (s : string) : list ascii := list_ascii_of_string s.

(** The C string held by a buffer: the bytes in front of the first NUL. *)
Fixpoint cstr (buf : list ascii) : list ascii :=
  match buf with
  | [] => []
  | c :: r => if Ascii.eqb c NUL then [] else c :: cstr r
  end.

Definition strlen (s : list ascii) : nat := length (cstr s).

(** [strcmp a b == 0] *)
Definition strcmp0 (a b : list ascii) : bool :=
  bool_decide (cstr a = cstr b).

(** [strncmp a b n == 0] *)
Definition strncmp0 (a b : list ascii) (n : nat) : bool :=
  bool_decide (take n (cstr a) = take n (cstr b)).

(** [strncpy dst src n] into a destination whose byte [n] is zero (a zeroed
    struct field or an initialised array, copied with [sizeof - 1]): the
    destination then reads as the first [n] characters of [src]. *)
Definition strncpy (src : list ascii) (n : nat) : list ascii :=
  take n (cstr src).

(** [snprintf buf size ...] once the format has been expanded to [text]
    (each [%s] argument read as a C string): what the buffer holds, and the
    returned length. *)
Definition snprintf (size : nat) (text : list ascii) : list ascii * Z :=
  (take (size - 1) text, Z.of_nat (length text)).

(** [strchr s c]: the text in front of the first [c], and the text after. *)
Fixpoint strchr (s : list ascii) (c : ascii) : option (list ascii * list ascii) :=
  match s with
  | [] => None
  | x :: r =>
      if Ascii.eqb x c then Some ([], r)
      else match strchr r c with
           | Some (a, b) => Some (x :: a, b)
           | None => None
           end
  end.

Fixpoint is_prefix (p s : list ascii) : bool :=
  match p, s with
  | [], _ => true
  | _ :: _, [] => false
  | a :: p', b :: s' => Ascii.eqb a b && is_prefix p' s'
  end.

(** [strstr hay needle != NULL] *)
Fixpoint strstr (hay needle : list ascii) : bool :=
  is_prefix needle hay ||
  match hay with
  | [] => false
  | _ :: r => strstr r needle
  end.

(** [%d] and [%ld] *)
Definition fmt_d (z : Z) : list ascii :=
  lit (NilZero.string_of_int (Z.to_int z)).

(** *** strtok with the single delimiter LF

    [strtok] keeps one static pointer; [olds] is the text it points to. *)
Fixpoint skip_lf (s : list ascii) : list ascii :=
  match s with
  | c :: r => if Ascii.eqb c LF then skip_lf r else s
  | [] => []
  end.

Definition strtok (s : option (list ascii)) (olds : list ascii)
  : option (list ascii) * list ascii :=
  let s0 := match s with Some x => cstr x | None => olds end in
  match skip_lf s0 with
  | [] => (None, [])
  | s1 =>
      match strchr s1 LF with
      | Some (tok, rest) => (Some tok, rest)
      | None => (Some s1, [])
      end
  end.

(** ** Data model *)

(** [session_context_t]; the command history is written by no function of
    the daemon and is left out. *)
Record session_context_t := mk_session {
  session_id : list ascii;      (* char[64] *)
  current_cwd : list ascii;     (* char[PATH_MAX] *)
  current_pane : list ascii;    (* char[16] *)
  last_activity : Z;            (* time_t *)
  scrollback : list ascii;      (* char[MAX_BUFFER_SIZE], bytes before the terminator *)
  scrollback_len : Z            (* int *)
}.

(** The zeroed slot that [memset] leaves. *)
Definition zero_session : session_context_t :=
  mk_session [] [] [] 0 [] 0.

(** The session table [g_state.sessions[0 .. session_count)] is the list of
    its occupied slots, in slot order; [session_count] is its length. *)
Definition session_count (reg : list session_context_t) : Z :=
  Z.of_nat (length reg).

(** [find_session]: the slot index of the first entry whose id compares
    equal, the model of the returned pointer. *)
Fixpoint find_from (i : nat) (reg : list session_context_t) (id : list ascii)
  : option nat :=
  match reg with
  | [] => None
  | s :: r =>
      if strcmp0 (session_id s) id then Some i else find_from (S i) r id
  end.

Definition find_session (reg : list session_context_t) (id : list ascii)
  : option nat := find_from 0 reg id.

(** [create_session], given the value [now] of [time(NULL)]. *)
Definition create_session (reg : list session_context_t) (id : list ascii)
  (now : Z) : option nat * list session_context_t :=
  if session_count reg >=? MAX_SESSIONS then (None, reg)
  else
    let session :=
      mk_session (strncpy id 63) [] [] now [] 0 in
    (Some (length reg), reg ++ [session]).

(** The find-or-create step of [scan_tmux_sessions] (the registry's
    createIfAbsent). *)
Definition create_if_absent (reg : list session_context_t) (id : list ascii)
  (now : Z) : option nat * list session_context_t :=
  match find_session reg id with
  | Some i => (Some i, reg)
  | None => create_session reg id now
  end.

(** ** The external world

    [popen] starts a command and gives its stream, or fails; a started
    process has the bytes it writes to standard output and the exit status
    that [pclose] would report.  [time] reads the clock. *)

Record process := mk_process {
  p_stdout : list ascii;
  p_status : Z
}.

(** [fread buf 1 n fp] on a pipe: all [n] bytes unless the stream ends. *)
Definition fread (fp : list ascii) (n : Z) : list ascii * list ascii :=
  (take (Z.to_nat n) fp, drop (Z.to_nat n) fp).

(** The read loop of [execute_tmux_command]; [output] holds the
    [total_read] bytes stored so far. *)
Fixpoint read_loop (fuel : nat) (fp output : list ascii) (output_size : Z)
  : list ascii :=
  match fuel with
  | O => output
  | S fuel' =>
      let total_read := Z.of_nat (length output) in
      if total_read <? size_sub output_size 1 then
        let '(chunk, fp') :=
          fread fp (size_sub (size_sub output_size total_read) 1) in
        if Z.of_nat (length chunk) =? 0 then output
        else read_loop fuel' fp' (output ++ chunk) output_size
      else output
  end.

(** Remove trailing newline if present. *)
Definition chomp (output : list ascii) : list ascii :=
  match last output with
  | Some c => if Ascii.eqb c LF then take (length output - 1) output else output
  | None => output
  end.

Definition pane_header (pane_id pane_title : list ascii) : list ascii :=
  [LF] ++ lit "=== PANE " ++ cstr pane_id ++ lit " (" ++ cstr pane_title
       ++ lit ") ===" ++ [LF].

(** Parse pane info: "window.pane:title:command".  In the branch without a
    colon the source leaves [pane_id[31]] unwritten; the model reads the
    array as terminated there, as it is after every line with a colon. *)
Definition parse_pane_line (line : list ascii)
  : list ascii * list ascii * list ascii :=
  match strchr line COLON with
  | Some (before, after) =>
      let pane_id := strncpy before 31 in
      match strchr after COLON with
      | Some (title, command) =>
          (pane_id, strncpy title 63, strncpy command 63)
      | None => (pane_id, strncpy after 63, [])
      end
  | None => (strncpy line 31, lit "shell", [])
  end.

Definition self_excluded (pane_title : list ascii) : bool :=
  strstr pane_title (lit "muxgeist").

(** A write at offset [off] of a buffer, terminator included. *)
Definition write_at (buf : list ascii) (off : Z) (data : list ascii)
  : list ascii :=
  take (Z.to_nat off) buf ++ data.

(** The branch [content_len > 10] of the pane loop: header, then content. *)
Definition append_pane (session : session_context_t)
  (pane_id pane_title temp_content : list ascii) (content_len : Z)
  : session_context_t :=
  let len0 := scrollback_len session in
  let '(written, header_len) :=
    snprintf (Z.to_nat (size_sub MAX_BUFFER_SIZE (to_size_t len0)))
             (pane_header pane_id pane_title) in
  let buf1 := write_at (scrollback session) len0 written in
  let len1 :=
    if (0 <? header_len) && (to_size_t (len0 + header_len) <? MAX_BUFFER_SIZE)
    then len0 + header_len else len0 in
  let available_space :=
    size_sub (size_sub MAX_BUFFER_SIZE (to_size_t len1)) 1 in
  let copy_len :=
    if content_len <? available_space then content_len else available_space in
  let '(buf2, len2) :=
    if 0 <? copy_len
    then (write_at buf1 len1 (take (Z.to_nat copy_len) temp_content),
          len1 + copy_len)
    else (buf1, len1) in
  mk_session (session_id session) (current_cwd session) (current_pane session)
             (last_activity session) buf2 len2.

Definition set_scrollback (session : session_context_t)
  (buf : list ascii) (len : Z) : session_context_t :=
  mk_session (session_id session) (current_cwd session) (current_pane session)
             (last_activity session) buf len.

Definition list_panes_cmd (sid : list ascii) : list ascii :=
  fst (snprintf 512
         (lit "tmux list-panes -t " ++ cstr sid ++
          lit " -F '#{window_index}.#{pane_index}:#{pane_title}:#{pane_current_command}'")).

Definition capture_active_cmd (sid : list ascii) : list ascii :=
  fst (snprintf 512 (lit "tmux capture-pane -t " ++ cstr sid ++ lit " -p")).

Definition capture_pane_cmd (sid pane_id : list ascii) : list ascii :=
  fst (snprintf 512
         (lit "tmux capture-pane -t " ++ cstr sid ++ [COLON] ++ cstr pane_id
          ++ lit " -p")).

Definition pane_cmd_of_session (sid : list ascii) : list ascii :=
  fst (snprintf 256
         (lit "tmux display-message -t " ++ cstr sid ++ lit " -p '#{pane_id}'")).

Definition cwd_cmd_of_session (sid : list ascii) : list ascii :=
  fst (snprintf 256
         (lit "tmux display-message -t " ++ cstr sid
          ++ lit " -p '#{pane_current_path}'")).

Definition list_sessions_cmd : list ascii :=
  lit "tmux list-sessions -F '#{session_name}'".

Section Daemon.

Variable World : Type.
Variable popen : World -> list ascii -> option process * World.
Variable time : World -> Z * World.

(** [execute_tmux_command cmd output output_size]: the return code and
    the bytes of [output] in front of its terminator. *)
Definition execute_tmux_command (w : World) (cmd output : list ascii)
  (output_size : Z) : muxgeist_error_t * list ascii * World :=
  match popen w cmd with
  | (None, w') => (ERROR_TMUX_CMD, output, w')
  | (Some fp, w') =>
      let data :=
        read_loop (S (length (p_stdout fp))) (p_stdout fp) [] output_size in
      (ERROR_NONE, chomp data, w')
  end.

(** The fallback of [capture_all_panes]: the active pane, verbatim. *)
Definition capture_active (session : session_context_t) (w : World)
  : session_context_t * World :=
  match popen w (capture_active_cmd (session_id session)) with
  | (Some fp, w') =>
      let '(data, _) :=
        fread (p_stdout fp) (size_sub MAX_BUFFER_SIZE 1) in
      (set_scrollback session data (Z.of_nat (length data)), w')
  | (None, w') => (session, w')
  end.

(** One pane line of the loop of [capture_all_panes], up to (not
    including) the [strtok] that fetches the next line. *)
Definition pane_step (line : list ascii)
  (st : session_context_t * Z * World) : session_context_t * Z * World :=
  let '(session, pane_count, w) := st in
  let '(pane_id, pane_title, _) := parse_pane_line line in
  if self_excluded pane_title then st
  else
    match popen w (capture_pane_cmd (session_id session) pane_id) with
    | (Some fp, w') =>
        let '(temp_content, _) :=
          fread (p_stdout fp) (size_sub MAX_BUFFER_SIZE 1) in
        let content_len := Z.of_nat (length temp_content) in
        if 10 <? content_len
        then (append_pane session pane_id pane_title temp_content
                          content_len, pane_count + 1, w')
        else (session, pane_count, w')
    | (None, w') => (session, pane_count, w')
    end.

Definition pane_loop_cond (session : session_context_t) : bool :=
  to_size_t (scrollback_len session) <? size_sub MAX_BUFFER_SIZE 500.

(** The loop over the pane lines.  It returns the line it stopped at and
    the text [strtok] is left pointing to. *)
Fixpoint pane_loop (fuel : nat) (line : option (list ascii))
  (olds : list ascii) (st : session_context_t * Z * World)
  : option (list ascii) * list ascii * (session_context_t * Z * World) :=
  match fuel with
  | O => (line, olds, st)
  | S fuel' =>
      match line with
      | Some l =>
          if pane_loop_cond (fst (fst st)) then
            let st' := pane_step l st in
            let '(line', olds') := strtok None olds in
            pane_loop fuel' line' olds' st'
          else (line, olds, st)
      | None => (line, olds, st)
      end
  end.

Definition capture_all_panes (session : session_context_t) (w : World)
  (olds : list ascii)
  : muxgeist_error_t * session_context_t * list ascii * World :=
  let session := set_scrollback session [] 0 in
  match execute_tmux_command w (list_panes_cmd (session_id session)) [] 2048
  with
  | (ERROR_NONE, pane_list, w1) =>
      if (strlen pane_list =? 0)%nat then
        let '(session', w2) := capture_active session w1 in
        (ERROR_NONE, session', olds, w2)
      else
        let '(line, olds1) := strtok (Some pane_list) olds in
        let '(_, olds2, (session', pane_count, w2)) :=
          pane_loop (S (length pane_list)) line olds1 (session, 0, w1) in
        if pane_count =? 0 then
          let '(session'', w3) := capture_active session' w2 in
          (ERROR_NONE, session'', olds2, w3)
        else (ERROR_NONE, session', olds2, w2)
  | (_, _, w1) => (ERROR_TMUX_CMD, session, olds, w1)
  end.

Definition update_session_context (session : session_context_t) (w : World)
  (olds : list ascii)
  : muxgeist_error_t * session_context_t * list ascii * World :=
  let '(rc1, output1, w1) :=
    execute_tmux_command w (pane_cmd_of_session (session_id session)) []
                         MAX_BUFFER_SIZE in
  let session1 :=
    match rc1 with
    | ERROR_NONE =>
        mk_session (session_id session) (current_cwd session)
                   (strncpy output1 15) (last_activity session)
                   (scrollback session) (scrollback_len session)
    | _ => session
    end in
  let '(rc2, output2, w2) :=
    execute_tmux_command w1 (cwd_cmd_of_session (session_id session1))
                         output1 MAX_BUFFER_SIZE in
  let session2 :=
    match rc2 with
    | ERROR_NONE =>
        mk_session (session_id session1)
                   (strncpy output2 (Z.to_nat (PATH_MAX - 1)))
                   (current_pane session1) (last_activity session1)
                   (scrollback session1) (scrollback_len session1)
    | _ => session1
    end in
  let '(rc, session3, olds', w3) := capture_all_panes session2 w2 olds in
  let '(now, w4) := time w3 in
  (rc,
   mk_session (session_id session3) (current_cwd session3)
              (current_pane session3) now
              (scrollback session3) (scrollback_len session3),
   olds', w4).

(** The globals the scanner works on: the session table, the static
    pointer of [strtok], and the world. *)
Record machine := mk_machine {
  g_state : list session_context_t;
  strtok_olds : list ascii;
  world : World
}.

(** [create_session] in the world: the clock is read only when a slot
    is free. *)
Definition create_session_w (reg : list session_context_t)
  (id : list ascii) (w : World)
  : option nat * list session_context_t * World :=
  if session_count reg >=? MAX_SESSIONS then (None, reg, w)
  else
    let '(now, w') := time w in
    (create_session reg id now, w').

(** One session line of [scan_tmux_sessions], up to the [strtok] that
    fetches the next line. *)
Definition scan_step (line : list ascii) (m : machine) : machine :=
  let '(session, reg, w) :=
    match find_session (g_state m) line with
    | Some i => (Some i, g_state m, world m)
    | None => create_session_w (g_state m) line (world m)
    end in
  match session with
  | Some i =>
      match reg !! i with
      | Some s =>
          let '(_, s', olds', w') :=
            update_session_context s w (strtok_olds m) in
          mk_machine (<[i := s']> reg) olds' w'
      | None => mk_machine reg (strtok_olds m) w
      end
  | None => mk_machine reg (strtok_olds m) w
  end.

(** The loop of [scan_tmux_sessions]: the machine after at most [fuel]
    lines, and the line still to be processed (none when the loop has
    ended).  The [strtok (NULL)] at the end of the body continues from the
    static pointer as [update_session_context] left it: when
    [capture_all_panes] has run its own [strtok] over the pane listing, the
    scanner goes on in what remains of that listing (the buffer of the
    finished call, read as it was left), not in the list of sessions. *)
Fixpoint scan_loop (fuel : nat) (line : option (list ascii)) (m : machine)
  : option (list ascii) * machine :=
  match fuel with
  | O => (line, m)
  | S fuel' =>
      match line with
      | Some l =>
          let m' := scan_step l m in
          let '(line', olds') := strtok None (strtok_olds m') in
          scan_loop fuel' line' (mk_machine (g_state m') olds' (world m'))
      | None => (None, m)
      end
  end.

Definition scan_tmux_sessions (fuel : nat) (m : machine)
  : muxgeist_error_t * (option (list ascii) * machine) :=
  match execute_tmux_command (world m) list_sessions_cmd [] MAX_BUFFER_SIZE
  with
  | (ERROR_NONE, output, w1) =>
      let '(line, olds1) := strtok (Some output) (strtok_olds m) in
      (ERROR_NONE,
       scan_loop fuel line (mk_machine (g_state m) olds1 w1))
  | (rc, _, w1) =>
      (rc, (None, mk_machine (g_state m) (strtok_olds m) w1))
  end.

End Daemon.

Arguments mk_machine {World}.
Arguments g_state {World}.
Arguments strtok_olds {World}.
Arguments world {World}.

(** ** The request server *)

Definition strncat (dst src : list ascii) (n : Z) : list ascii :=
  cstr dst ++ take (Z.to_nat n) (cstr src).

Definition session_info (s : session_context_t) : list ascii :=
  fst (snprintf 256
         (cstr (session_id s) ++ lit " (" ++ cstr (current_cwd s)
          ++ lit ")" ++ [LF])).

Fixpoint list_loop (reg : list session_context_t) (response : list ascii)
  : list ascii :=
  match reg with
  | [] => response
  | s :: r =>
      list_loop r
        (strncat response (session_info s)
           (size_sub (size_sub MAX_BUFFER_SIZE (Z.of_nat (strlen response))) 1))
  end.

Definition context_dump (s : session_context_t) : list ascii :=
  lit "Session: " ++ cstr (session_id s) ++ [LF] ++
  lit "CWD: " ++ cstr (current_cwd s) ++ [LF] ++
  lit "Pane: " ++ cstr (current_pane s) ++ [LF] ++
  lit "Last Activity: " ++ fmt_d (last_activity s) ++ [LF] ++
  lit "Scrollback Length: " ++ fmt_d (scrollback_len s) ++ [LF] ++
  lit "Scrollback:" ++ [LF] ++ cstr (scrollback s) ++ [LF].

Definition RESPONSE_SIZE : nat := Z.to_nat MAX_BUFFER_SIZE.

(** [handle_client_request]: the bytes sent back for the bytes that
    arrive on the connection, or nothing when [recv] gives none. *)
Definition handle_client_request (reg : list session_context_t)
  (incoming : list ascii) : option (list ascii) :=
  let buffer := take (Z.to_nat (MAX_BUFFER_SIZE - 1)) incoming in
  let bytes_read := Z.of_nat (length buffer) in
  if bytes_read <=? 0 then None
  else
    let response :=
      if strcmp0 buffer (lit "status") then
        fst (snprintf RESPONSE_SIZE
               (lit "OK: " ++ fmt_d (session_count reg)
                ++ lit " sessions tracked"))
      else if strncmp0 buffer (lit "context:") 8 then
        let session_id := drop 8 buffer in
        match find_session reg session_id with
        | Some i =>
            match reg !! i with
            | Some session =>
                fst (snprintf RESPONSE_SIZE (context_dump session))
            | None => []
            end
        | None => fst (snprintf RESPONSE_SIZE (lit "ERROR: Session not found"))
        end
      else if strcmp0 buffer (lit "list") then
        list_loop reg []
      else fst (snprintf RESPONSE_SIZE (lit "ERROR: Unknown command")) in
    Some (cstr response).

(** ** Notions used by the statements *)

Definition nul_free (s : list ascii) : Prop := Forall (fun c => c <> NUL) s.

(** The lines [strtok] hands out for a text: its non-empty pieces between
    line feeds. *)
Fixpoint split_lf (s : list ascii) : list (list ascii) :=
  match s with
  | [] => [[]]
  | c :: r =>
      if Ascii.eqb c LF then [] :: split_lf r
      else match split_lf r with
           | h :: t => (c :: h) :: t
           | [] => [[c]]
           end
  end.

Definition nonempty (s : list ascii) : bool :=
  match s with [] => false | _ => true end.

Definition tokens (s : list ascii) : list (list ascii) :=
  filter (fun t => nonempty t = true) (split_lf s).

(** A run of createIfAbsent calls, each with the clock value it would see. *)
Fixpoint create_all (reg : list session_context_t)
  (calls : list (list ascii * Z)) : list session_context_t :=
  match calls with
  | [] => reg
  | (id, now) :: rest => create_all (snd (create_if_absent reg id now)) rest
  end.

Section Reachability.

Variable World : Type.
Variable popen : World -> list ascii -> option process * World.
Variable time : World -> Z * World.

(** What can happen to the globals: the scanner runs (and is observed
    after any number of its lines), or the world outside changes. *)
Inductive step : machine World -> machine World -> Prop :=
| step_scan (m : machine World) (fuel : nat) :
    step m (snd (snd (scan_tmux_sessions World popen time fuel m)))
| step_env (m : machine World) (w' : World) :
    step m (mk_machine (g_state m) (strtok_olds m) w').

Definition initial (w : World) : machine World := mk_machine [] [] w.

Definition reachable (m : machine World) : Prop :=
  exists w, rtc step (initial w) m.

End Reachability.

(** The request as the server reads it: at most [MAX_BUFFER_SIZE - 1]
    received bytes, as a C string. *)
Definition request_text (incoming : list ascii) : list ascii :=
  cstr (take (Z.to_nat (MAX_BUFFER_SIZE - 1)) incoming).

Section EngineNotions.

Variable World : Type.
Variable popen : World -> list ascii -> option process * World.

(** The pane loop as a run over the lines of the listing. *)
Fixpoint pane_lines (lines : list (list ascii))
  (st : session_context_t * Z * World) : session_context_t * Z * World :=
  match lines with
  | [] => st
  | l :: ls =>
      if pane_loop_cond (fst (fst st))
      then pane_lines ls (pane_step World popen l st)
      else st
  end.

(** The engine once the listing is known to be [lines]. *)
Definition engine_on_lines (session : session_context_t) (w : World)
  (lines : list (list ascii)) : session_context_t * World :=
  let '(session', pane_count, w') :=
    pane_lines lines (set_scrollback session [] 0, 0, w) in
  if pane_count =? 0 then capture_active World popen session' w'
  else (session', w').

(** Every line is self-excluded, or its capture cannot be started, or its
    capture reports at most 10 bytes; the result is the world after those
    captures. *)
Fixpoint all_skipped (sid : list ascii) (w : World)
  (lines : list (list ascii)) : option World :=
  match lines with
  | [] => Some w
  | l :: ls =>
      let '(pane_id, pane_title, _) := parse_pane_line l in
      if self_excluded pane_title then all_skipped sid w ls
      else
        match popen w (capture_pane_cmd sid pane_id) with
        | (Some fp, w') =>
            if (length (p_stdout fp) <=? 10)%nat then all_skipped sid w' ls
            else None
        | (None, w') => all_skipped sid w' ls
        end
  end.

End EngineNotions.

(** The pane listing the engine works on, for the output of the listing
    command. *)
Definition listing_of (fp : process) : list ascii :=
  cstr (chomp (take 2047 (p_stdout fp))).

Definition line_title (line : list ascii) : list ascii :=
  snd (fst (parse_pane_line line)).

Definition line_pane_id (line : list ascii) : list ascii :=
  fst (fst (parse_pane_line line)).

(** ** A small multiplexer, for the examples

    Sessions of one window with one pane, numbered "0.0"; that pane is the
    active one.  Commands about a session that does not exist print nothing
    on standard output and exit with status 1. *)

Record tmux_session := mk_tmux {
  t_name : list ascii;
  t_title : list ascii;
  t_cwd : list ascii;
  t_screen : list ascii
}.

Definition tmux_session_reply (s : tmux_session) (cmd : list ascii)
  : option (list ascii) :=
  let target := strncpy (t_name s) 63 in
  if bool_decide (cmd = list_panes_cmd target)
  then Some (lit "0.0:" ++ t_title s ++ lit ":bash" ++ [LF])
  else if bool_decide (cmd = pane_cmd_of_session target)
  then Some (lit "%0" ++ [LF])
  else if bool_decide (cmd = cwd_cmd_of_session target)
  then Some (t_cwd s ++ [LF])
  else if bool_decide (cmd = capture_pane_cmd target (lit "0.0"))
  then Some (t_screen s)
  else if bool_decide (cmd = capture_active_cmd target)
  then Some (t_screen s)
  else None.

Fixpoint tmux_reply (w : list tmux_session) (cmd : list ascii)
  : option (list ascii) :=
  match w with
  | [] => None
  | s :: r =>
      match tmux_session_reply s cmd with
      | Some out => Some out
      | None => tmux_reply r cmd
      end
  end.

Definition tmux_popen (w : list tmux_session) (cmd : list ascii)
  : option process * list tmux_session :=
  if bool_decide (cmd = list_sessions_cmd)
  then (Some (mk_process (concat ((fun s => t_name s ++ [LF]) <$> w)) 0), w)
  else
    match tmux_reply w cmd with
    | Some out => (Some (mk_process out 0), w)
    | None => (Some (mk_process [] 1), w)
    end.

Definition tmux_time (w : list tmux_session) : Z * list tmux_session :=
  (1700000000, w).

Definition tmux_scan (fuel : nat) (m : machine (list tmux_session))
  : machine (list tmux_session) :=
  snd (snd (scan_tmux_sessions (list tmux_session) tmux_popen tmux_time fuel m)).

(** One session whose name is one byte longer than the id field holds. *)
Definition long_name : list ascii := replicate 64 "a"%char.

Definition long_name_world : list tmux_session :=
  [mk_tmux long_name (lit "bash") (lit "/home/u")
           (lit "$ make" ++ [LF] ++ lit "cc -o muxgeist-daemon" ++ [LF])].

(** A command that prints two lines and a blank line, and fails. *)
Definition failing_cmd : list ascii := lit "tmux list-panes -t gone".

Definition failing_popen (w : unit) (cmd : list ascii)
  : option process * unit :=
  if bool_decide (cmd = failing_cmd)
  then (Some (mk_process (lit "0.0:a:sh" ++ [LF] ++ lit "0.1:b:sh" ++ [LF; LF]) 1), w)
  else (None, w).

(** A full table, with the ids "A", "B", ... of one character each, and a
    multiplexer that has one more session. *)
Definition full_registry : list session_context_t :=
  (fun i => mk_session [ascii_of_nat (65 + i)] (lit "/") (lit "%0") 0 [] 0)
    <$> seq 0 32.

Definition one_more_world : list tmux_session :=
  [mk_tmux (lit "zz") (lit "bash") (lit "/tmp") (lit "$ ")].

Definition full_machine : machine (list tmux_session) :=
  mk_machine full_registry [] one_more_world.

(** The recorded length is the length of the text, within the buffer. *)
Definition scrollback_ok (s : session_context_t) : Prop :=
  scrollback_len s = Z.of_nat (length (scrollback s)) /\
  scrollback_len s < MAX_BUFFER_SIZE.

(** A session "main" whose only pane shows a short prompt. *)
Definition prompt_world : list tmux_session :=
  [mk_tmux (lit "main") (lit "bash") (lit "/home/u") (lit "$ ")].

(** A session "main" whose only pane is the daemon's own UI pane. *)
Definition ui_screen : list ascii :=
  lit "muxgeist> 3 sessions tracked" ++ [LF].

Definition ui_only_world : list tmux_session :=
  [mk_tmux (lit "main") (lit "muxgeist") (lit "/home/u") ui_screen].

(** A session "main" with the UI pane 0.0 and an editor in pane 0.1, the
    active one. *)
Definition editor_screen : list ascii :=
  lit "int main(void) { return 0; }" ++ [LF].

Definition two_pane_popen (w : unit) (cmd : list ascii)
  : option process * unit :=
  if bool_decide (cmd = list_panes_cmd (lit "main"))
  then (Some (mk_process (lit "0.0:muxgeist:sh" ++ [LF] ++
                          lit "0.1:vim:vim" ++ [LF]) 0), w)
  else if bool_decide (cmd = capture_pane_cmd (lit "main") (lit "0.0"))
  then (Some (mk_process ui_screen 0), w)
  else if bool_decide (cmd = capture_pane_cmd (lit "main") (lit "0.1"))
  then (Some (mk_process editor_screen 0), w)
  else if bool_decide (cmd = capture_active_cmd (lit "main"))
  then (Some (mk_process editor_screen 0), w)
  else (Some (mk_process [] 1), w).

Definition main_session : session_context_t :=
  mk_session (lit "main") (lit "/home/u") (lit "%0") 1700000000 [] 0.

Definition two_pane_listing : process :=
  mk_process (lit "0.0:muxgeist:sh" ++ [LF] ++ lit "0.1:vim:vim" ++ [LF]) 0.



(** A session "build" in a directory whose path has 300 bytes, alone at
    first, and later joined by a session "alpha" that is listed first. *)
Definition deep_cwd : list ascii :=
  lit "/srv" ++ replicate (Z.to_nat 296) "d"%char.

Definition deep_world : list tmux_session :=
  [mk_tmux (lit "build") (lit "bash") deep_cwd (lit "$ make all" ++ [LF])].



(** ** Notions for the registry entries and the refresh *)

Definition lf_free (s : list ascii) : Prop := Forall (fun c => c <> LF) s.

(** An entry as the daemon's buffers can hold it: a non-empty id of one
    line within [char[64]], a pane id within [char[16]], a directory within
    [char[PATH_MAX]], and a scrollback whose recorded length is right. *)
Definition entry_ok (s : session_context_t) : Prop :=
  nul_free (session_id s) /\ lf_free (session_id s) /\
  session_id s <> [] /\ (length (session_id s) <= 63)%nat /\
  nul_free (current_pane s) /\ (length (current_pane s) <= 15)%nat /\
  nul_free (current_cwd s) /\
  Z.of_nat (length (current_cwd s)) <= PATH_MAX - 1 /\
  scrollback_ok s.

(** What the pane capture engine leaves alone. *)
Definition same_header (s s' : session_context_t) : Prop :=
  session_id s' = session_id s /\ current_cwd s' = current_cwd s /\
  current_pane s' = current_pane s /\ last_activity s' = last_activity s.

Section RefreshNotions.

Variable World : Type.
Variable popen : World -> list ascii -> option process * World.

(** The world in which a refresh lists the panes: after the queries for
    the active pane and for its directory. *)
Definition after_queries (w : World) (sid : list ascii) : World :=
  snd (popen (snd (popen w (pane_cmd_of_session sid)))
             (cwd_cmd_of_session sid)).

(** What a query of a refresh stores in a field of [n + 1] bytes: the
    start of the output without its final line feed, or the old value when
    the command cannot be started. *)
Definition queried (w : World) (cmd old : list ascii) (n : nat)
  : list ascii :=
  match popen w cmd with
  | (Some fp, _) =>
      strncpy (chomp (take (Z.to_nat (MAX_BUFFER_SIZE - 1)) (p_stdout fp))) n
  | (None, _) => old
  end.

End RefreshNotions.

(** The globals as the scanner keeps them. *)
Definition machine_ok {World : Type} (m : machine World) : Prop :=
  Forall entry_ok (g_state m) /\ nul_free (strtok_olds m).

(** The list of sessions the scanner works on, for the output of the
    listing command. *)
Definition sessions_listing (fp : process) : list ascii :=
  cstr (chomp (take (Z.to_nat (MAX_BUFFER_SIZE - 1)) (p_stdout fp))).

(** Two registered sessions and a multiplexer that knows the first. *)
Definition two_entry_machine : machine (list tmux_session) :=
  mk_machine
    [main_session; mk_session (lit "zz") (lit "/tmp") (lit "%3") 1700000000
                              (lit "zz screen") 9]
    [] prompt_world.

(** [needle] occurs in [hay] as a run of consecutive characters. *)
Definition occurs_in (needle hay : list ascii) : Prop :=
  exists a b : list ascii, hay = a ++ needle ++ b.

Definition colon_free (s : list ascii) : Prop :=
  Forall (fun c => c <> COLON) s.

(** * The command-line client [muxgeist-client.c] *)

Module Client.

Definition MAX_BUFFER_SIZE : Z := 8192.

Inductive client_error_t :=
| ERROR_NONE
| ERROR_SOCKET_CREATE
| ERROR_SOCKET_CONNECT
| ERROR_SEND_FAILED
| ERROR_RECV_FAILED
| ERROR_UNKNOWN.

(** The value of an error as [%d] prints it. *)
Definition error_code (e : client_error_t) : Z :=
  match e with
  | ERROR_NONE => 0
  | ERROR_SOCKET_CREATE => 1
  | ERROR_SOCKET_CONNECT => 2
  | ERROR_SEND_FAILED => 3
  | ERROR_RECV_FAILED => 4
  | ERROR_UNKNOWN => 255
  end.

(** The socket of one run, as the system answers the calls on it: whether
    [socket], [connect] and [send] succeed, and, for the bytes that were
    sent, the bytes that wait on the socket when [recv] is called (nothing
    when [recv] returns -1). *)
Record transport := mk_transport {
  socket_ok : bool;
  connect_ok : bool;
  send_ok : bool;
  pending : list ascii -> option (list ascii)
}.

(** [send_command command response response_size]: the error, and the
    bytes of [response] in front of its terminator (the buffer is written
    only when [recv] succeeds). *)
Definition send_command (t : transport) (command response : list ascii)
  (response_size : Z) : client_error_t * list ascii :=
  if negb (socket_ok t) then (ERROR_SOCKET_CREATE, response)
  else if negb (connect_ok t) then (ERROR_SOCKET_CONNECT, response)
  else if negb (send_ok t) then (ERROR_SEND_FAILED, response)
  else
    match pending t (cstr command) with
    | None => (ERROR_RECV_FAILED, response)
    | Some bytes =>
        (ERROR_NONE, take (Z.to_nat (size_sub response_size 1)) bytes)
    end.

Definition usage (progname : list ascii) : list ascii :=
  lit "Usage: " ++ cstr progname ++ lit " <command>" ++ [LF] ++
  lit "Commands:" ++ [LF] ++
  lit "  status              - Get daemon status" ++ [LF] ++
  lit "  list                - List tracked sessions" ++ [LF] ++
  lit "  context <session>   - Get context for specific session" ++ [LF].

(** The wire form of the command line. *)
Definition build_command (argv : list (list ascii)) : list ascii :=
  let argc := Z.of_nat (length argv) in
  let arg1 := default [] (argv !! 1%nat) in
  if strcmp0 arg1 (lit "context") && (argc =? 3)
  then fst (snprintf 256 (lit "context:" ++ cstr (default [] (argv !! 2%nat))))
  else strncpy arg1 255.

(** [main]: the exit status and what is written to standard output (the
    messages on standard error are left out). *)
Definition main (t : transport) (argv : list (list ascii)) : Z * list ascii :=
  let argc := Z.of_nat (length argv) in
  if argc <? 2 then (1, usage (default [] (argv !! 0%nat)))
  else
    let command := build_command argv in
    match send_command t command [] MAX_BUFFER_SIZE with
    | (ERROR_NONE, response) => (0, cstr response ++ [LF])
    | (_, _) => (1, [])
    end.

End Client.

(** The client talking to a daemon whose registry is [reg]: every call
    succeeds and what waits on the socket is the daemon's answer to the
    bytes sent (nothing, when the daemon closes without an answer). *)
Definition daemon_transport (reg : list session_context_t)
  : Client.transport :=
  Client.mk_transport true true true
    (fun sent => Some (default [] (handle_client_request reg sent))).

(** ** Notions for the [list] response *)



(** A session "main" in a directory whose name holds a line feed. *)
Definition two_line_cwd : list ascii := lit "/tmp/a" ++ [LF] ++ lit "b".

Definition two_line_cwd_world : list tmux_session :=
  [mk_tmux (lit "main") (lit "bash") two_line_cwd (lit "$ ")].

(** * Properties *)

(** ** Arithmetic on [size_t] *)

Lemma to_size_t_small (z : Z) : 0 <= z < SIZE_MAX1 -> to_size_t z = z.
Proof. intros H. unfold to_size_t. now apply Z.mod_small. Qed.

Lemma size_sub_small (a b : Z) :
  0 <= a - b < SIZE_MAX1 -> size_sub a b = a - b.
Proof. intros H. unfold size_sub. now apply Z.mod_small. Qed.

Lemma SIZE_MAX1_val : SIZE_MAX1 = 18446744073709551616.
Proof. reflexivity. Qed.

(** ** C strings *)

Lemma cstr_nul_free (s : list ascii) : nul_free (cstr s).
Proof.
  induction s as [|c r IH]; simpl; [constructor|].
  destruct (Ascii.eqb c NUL) eqn:E; [constructor|].
  constructor; [|exact IH].
  intros ->. now rewrite Ascii.eqb_refl in E.
Qed.

Lemma cstr_id (s : list ascii) : nul_free s -> cstr s = s.
Proof.
  induction 1 as [|c r Hc _ IH]; simpl; [reflexivity|].
  destruct (Ascii.eqb_spec c NUL); [contradiction|]. now rewrite IH.
Qed.

Lemma cstr_idemp (s : list ascii) : cstr (cstr s) = cstr s.
Proof. apply cstr_id, cstr_nul_free. Qed.

Lemma nul_free_app (a b : list ascii) :
  nul_free a -> nul_free b -> nul_free (a ++ b).
Proof. unfold nul_free. intros. now apply Forall_app. Qed.

Lemma nul_free_take (n : nat) (s : list ascii) : nul_free s -> nul_free (take n s).
Proof. unfold nul_free. apply Forall_take. Qed.

Lemma cstr_length (s : list ascii) : (length (cstr s) <= length s)%nat.
Proof.
  induction s as [|c r IH]; simpl; [lia|].
  destruct (Ascii.eqb c NUL); simpl; lia.
Qed.

Lemma strcmp0_true (a b : list ascii) : strcmp0 a b = true <-> cstr a = cstr b.
Proof. unfold strcmp0. apply bool_decide_eq_true. Qed.

Lemma strcmp0_false (a b : list ascii) : strcmp0 a b = false <-> cstr a <> cstr b.
Proof. unfold strcmp0. apply bool_decide_eq_false. Qed.

(** ** The registry *)

Lemma find_from_shift (i : nat) (reg : list session_context_t) (id : list ascii) :
  find_from i reg id = (fun j => (i + j)%nat) <$> find_from 0 reg id.
Proof.
  revert i. induction reg as [|s r IH]; intros i; simpl; [reflexivity|].
  destruct (strcmp0 (session_id s) id); simpl; [f_equal; lia|].
  rewrite (IH (S i)), (IH 1%nat).
  destruct (find_from 0 r id); simpl; [f_equal; lia|reflexivity].
Qed.

Lemma find_session_cons (s : session_context_t) (r : list session_context_t)
  (id : list ascii) :
  find_session (s :: r) id =
  if strcmp0 (session_id s) id then Some 0%nat else S <$> find_session r id.
Proof.
  unfold find_session. simpl. destruct (strcmp0 _ _); [reflexivity|].
  now rewrite find_from_shift.
Qed.

Lemma find_session_Some (reg : list session_context_t) (id : list ascii) (i : nat) :
  find_session reg id = Some i ->
  exists s, reg !! i = Some s /\ cstr (session_id s) = cstr id /\
    forall j s', (j < i)%nat -> reg !! j = Some s' ->
      cstr (session_id s') <> cstr id.
Proof.
  revert i. induction reg as [|s r IH]; intros i; [discriminate|].
  rewrite find_session_cons. destruct (strcmp0 _ _) eqn:E.
  - intros [= <-]. exists s. split; [reflexivity|]. split.
    + now apply strcmp0_true.
    + intros j s' Hj. lia.
  - destruct (find_session r id) as [k|] eqn:F; [|discriminate].
    simpl. intros [= <-]. destruct (IH k eq_refl) as (s0 & H1 & H2 & H3).
    exists s0. split; [exact H1|]. split; [exact H2|].
    intros [|j] s' Hj Hl; simpl in Hl.
    + injection Hl as <-. now apply strcmp0_false.
    + apply (H3 j); [lia|exact Hl].
Qed.

Lemma find_session_None (reg : list session_context_t) (id : list ascii) :
  find_session reg id = None <->
  Forall (fun s => cstr (session_id s) <> cstr id) reg.
Proof.
  induction reg as [|s r IH].
  - split; [constructor|reflexivity].
  - rewrite find_session_cons. destruct (strcmp0 _ _) eqn:E.
    + split; [discriminate|]. intros H. inversion H; subst.
      apply strcmp0_true in E. contradiction.
    + apply strcmp0_false in E. rewrite Forall_cons.
      destruct (find_session r id); simpl.
      * split; [discriminate|]. intros [_ H]. now apply IH in H.
      * split; [intros _; split; [exact E|now apply IH]|reflexivity].
Qed.

Lemma find_session_lt (reg : list session_context_t) (id : list ascii) (i : nat) :
  find_session reg id = Some i -> (i < length reg)%nat.
Proof.
  intros H. destruct (find_session_Some _ _ _ H) as (s & Hs & _).
  now apply lookup_lt_Some in Hs.
Qed.

(** [find_session] looks at the ids only. *)
Lemma find_session_ids (reg reg' : list session_context_t) (id : list ascii) :
  session_id <$> reg = session_id <$> reg' ->
  find_session reg id = find_session reg' id.
Proof.
  revert reg'. induction reg as [|s r IH]; intros [|s' r']; simpl;
    try discriminate; [reflexivity|].
  intros [= H1 H2]. rewrite !find_session_cons, H1, (IH r' H2). reflexivity.
Qed.

Lemma create_session_full (reg : list session_context_t) (id : list ascii) (now : Z) :
  session_count reg >= MAX_SESSIONS -> create_session reg id now = (None, reg).
Proof.
  intros H. unfold create_session.
  destruct (Z.geb_spec (session_count reg) MAX_SESSIONS); [reflexivity|lia].
Qed.

Lemma create_session_free (reg : list session_context_t) (id : list ascii) (now : Z) :
  session_count reg < MAX_SESSIONS ->
  create_session reg id now =
  (Some (length reg), reg ++ [mk_session (strncpy id 63) [] [] now [] 0]).
Proof.
  intros H. unfold create_session.
  destruct (Z.geb_spec (session_count reg) MAX_SESSIONS); [lia|reflexivity].
Qed.

Lemma append_pane_fields (s : session_context_t)
  (pane_id pane_title temp_content : list ascii) (content_len : Z) :
  let s' := append_pane s pane_id pane_title temp_content content_len in
  session_id s' = session_id s /\ current_cwd s' = current_cwd s /\
  current_pane s' = current_pane s /\ last_activity s' = last_activity s.
Proof.
  unfold append_pane, snprintf. simpl.
  repeat match goal with |- context [if ?b then _ else _] => destruct b end;
    simpl; auto.
Qed.

Section Preservation.

Variable World : Type.
Variable popen : World -> list ascii -> option process * World.
Variable time : World -> Z * World.

Local Abbreviation capture_active := (capture_active World popen).
Local Abbreviation pane_step := (pane_step World popen).
Local Abbreviation pane_loop := (pane_loop World popen).
Local Abbreviation capture_all_panes := (capture_all_panes World popen).
Local Abbreviation update_session_context := (update_session_context World popen time).
Local Abbreviation scan_step := (scan_step World popen time).
Local Abbreviation scan_loop := (scan_loop World popen time).
Local Abbreviation scan_tmux_sessions := (scan_tmux_sessions World popen time).
Local Abbreviation execute_tmux_command := (execute_tmux_command World popen).

Lemma capture_active_id (s : session_context_t) (w : World) :
  session_id (fst (capture_active s w)) = session_id s.
Proof.
  unfold capture_active. destruct (popen w _) as [[fp|] w']; reflexivity.
Qed.

Lemma pane_step_id (line : list ascii) (s : session_context_t) (pc : Z)
  (w : World) :
  session_id (fst (fst (pane_step line (s, pc, w)))) = session_id s.
Proof.
  unfold pane_step. destruct (parse_pane_line line) as [[pid title] cmd].
  destruct (self_excluded title); [reflexivity|].
  destruct (popen w _) as [[fp|] w']; [|reflexivity].
  simpl. destruct (10 <? _); [|reflexivity].
  simpl. apply append_pane_fields.
Qed.

Lemma pane_loop_id (fuel : nat) (line : option (list ascii))
  (olds : list ascii) (st : session_context_t * Z * World) :
  session_id (fst (fst (snd (pane_loop fuel line olds st)))) =
  session_id (fst (fst st)).
Proof.
  revert line olds st.
  induction fuel as [|fuel IH]; intros line olds st; [reflexivity|].
  simpl. destruct line as [l|]; [|reflexivity].
  destruct (pane_loop_cond _); [|reflexivity].
  destruct (strtok None olds) as [line' olds']. rewrite IH.
  destruct st as [[s pc] w]. apply pane_step_id.
Qed.

Lemma capture_all_panes_id (s : session_context_t) (w : World)
  (olds : list ascii) :
  session_id (snd (fst (fst (capture_all_panes s w olds)))) = session_id s.
Proof.
  unfold capture_all_panes.
  destruct (execute_tmux_command w _ _ _) as [[rc pane_list] w1].
  destruct rc; try reflexivity.
  destruct (strlen pane_list =? 0)%nat.
  - pose proof (capture_active_id (set_scrollback s [] 0) w1) as H.
    destruct (capture_active _ w1) as [s' w2]. exact H.
  - destruct (strtok (Some pane_list) olds) as [line olds1].
    pose proof (pane_loop_id (S (length pane_list)) line olds1
                  (set_scrollback s [] 0, 0, w1)) as H.
    destruct (pane_loop _ _ _ _) as [[line' olds2] [[s' pc] w2]].
    simpl in H. destruct (pc =? 0).
    + pose proof (capture_active_id s' w2) as H'.
      destruct (capture_active s' w2) as [s'' w3]. simpl in *. congruence.
    + exact H.
Qed.

Lemma update_session_context_id (s : session_context_t) (w : World)
  (olds : list ascii) :
  session_id (snd (fst (fst (update_session_context s w olds)))) =
  session_id s.
Proof.
  unfold update_session_context.
  destruct (execute_tmux_command w _ _ _) as [[rc1 out1] w1].
  destruct (execute_tmux_command w1 _ _ _) as [[rc2 out2] w2].
  match goal with |- context [capture_all_panes ?x w2 olds] =>
    pose proof (capture_all_panes_id x w2 olds) as H;
    destruct (capture_all_panes x w2 olds) as [[[rc s3] olds'] w3]
  end.
  destruct (time w3) as [now w4]. simpl in *. rewrite H.
  destruct rc1, rc2; reflexivity.
Qed.

End Preservation.

Section Scanner.

Variable World : Type.
Variable popen : World -> list ascii -> option process * World.
Variable time : World -> Z * World.

Local Abbreviation update_session_context :=
  (update_session_context World popen time).
Local Abbreviation scan_step := (scan_step World popen time).
Local Abbreviation scan_loop := (scan_loop World popen time).
Local Abbreviation scan_tmux_sessions := (scan_tmux_sessions World popen time).
Local Abbreviation step := (step World popen time).
Local Abbreviation reachable := (reachable World popen time).

(** A refresh writes the slot it was given and nothing else; the ids of the
    table are untouched. *)
Lemma refresh_ids (reg : list session_context_t) (i : nat)
  (s s' : session_context_t) :
  reg !! i = Some s -> session_id s' = session_id s ->
  session_id <$> <[i := s']> reg = session_id <$> reg.
Proof.
  intros Hl Hid. rewrite list_fmap_insert, Hid.
  apply list_insert_id. now rewrite list_lookup_fmap, Hl.
Qed.

(** One line of the scan either leaves the ids as they are, or (unseen id,
    free slot) appends the truncated id. *)
Lemma scan_step_ids (line : list ascii) (m : machine World) :
  session_id <$> g_state (scan_step line m) = session_id <$> g_state m \/
  (find_session (g_state m) line = None /\
   session_count (g_state m) < MAX_SESSIONS /\
   session_id <$> g_state (scan_step line m) =
     (session_id <$> g_state m) ++ [strncpy line 63]).
Proof.
  unfold scan_step. destruct (find_session (g_state m) line) as [i|] eqn:F.
  - left. destruct (g_state m !! i) as [s|] eqn:L; [|reflexivity].
    pose proof (update_session_context_id World popen time s (world m)
                  (strtok_olds m)) as H.
    destruct (update_session_context s _ _) as [[[rc s'] olds'] w'].
    simpl in *. now apply refresh_ids with s.
  - unfold create_session_w.
    destruct (Z.geb_spec (session_count (g_state m)) MAX_SESSIONS) as [Hf|Hf].
    + left. reflexivity.
    + right. split; [reflexivity|]. split; [exact Hf|].
      destruct (time (world m)) as [now w'].
      rewrite create_session_free by exact Hf.
      rewrite lookup_app_r, Nat.sub_diag by lia. simpl.
      match goal with |- context [update_session_context ?x w' ?o] =>
        pose proof (update_session_context_id World popen time x w' o) as H;
        destruct (update_session_context x w' o) as [[[rc s'] olds'] w'']
      end.
      simpl in *.
      rewrite (refresh_ids _ _ (mk_session (strncpy line 63) [] [] now [] 0) s').
      * rewrite fmap_app. reflexivity.
      * rewrite lookup_app_r, Nat.sub_diag by lia. reflexivity.
      * exact H.
Qed.

Lemma scan_step_grows (line : list ascii) (m : machine World) :
  (session_id <$> g_state m) `prefix_of` (session_id <$> g_state (scan_step line m)) /\
  (session_count (g_state m) <= MAX_SESSIONS ->
   session_count (g_state (scan_step line m)) <= MAX_SESSIONS).
Proof.
  pose proof (f_equal length (A:=list (list ascii))) as L.
  destruct (scan_step_ids line m) as [H|(_ & Hf & H)].
  - rewrite H. split; [reflexivity|]. intros Hc.
    apply L in H. rewrite !length_fmap in H. unfold session_count in *. lia.
  - rewrite H. split; [now apply prefix_app_r|]. intros _.
    apply L in H. rewrite length_app, !length_fmap in H. simpl in H.
    unfold session_count in *. lia.
Qed.

Lemma scan_loop_grows (fuel : nat) (line : option (list ascii))
  (m : machine World) :
  (session_id <$> g_state m) `prefix_of`
    (session_id <$> g_state (snd (scan_loop fuel line m))) /\
  (session_count (g_state m) <= MAX_SESSIONS ->
   session_count (g_state (snd (scan_loop fuel line m))) <= MAX_SESSIONS).
Proof.
  revert line m. induction fuel as [|fuel IH]; intros line m; simpl.
  - split; [reflexivity|tauto].
  - destruct line as [l|]; [|split; [reflexivity|tauto]].
    destruct (strtok None _) as [line' olds'].
    destruct (scan_step_grows l m) as [H1 H2].
    match goal with |- context [scan_loop fuel line' ?x] =>
      destruct (IH line' x) as [H3 H4] end.
    simpl in *. split; [etrans; eassumption|tauto].
Qed.

Lemma scan_tmux_sessions_grows (fuel : nat) (m : machine World) :
  (session_id <$> g_state m) `prefix_of`
    (session_id <$> g_state (snd (snd (scan_tmux_sessions fuel m)))) /\
  (session_count (g_state m) <= MAX_SESSIONS ->
   session_count (g_state (snd (snd (scan_tmux_sessions fuel m))))
     <= MAX_SESSIONS).
Proof.
  unfold scan_tmux_sessions.
  destruct (execute_tmux_command _ _ _ _ _ _) as [[rc output] w1].
  destruct rc; try (split; [reflexivity|tauto]).
  destruct (strtok (Some output) _) as [line olds1].
  apply (scan_loop_grows fuel line (mk_machine (g_state m) olds1 w1)).
Qed.

Lemma step_grows (m m' : machine World) :
  step m m' ->
  (session_id <$> g_state m) `prefix_of` (session_id <$> g_state m') /\
  (session_count (g_state m) <= MAX_SESSIONS ->
   session_count (g_state m') <= MAX_SESSIONS).
Proof.
  destruct 1 as [m fuel|m w'].
  - apply scan_tmux_sessions_grows.
  - split; [reflexivity|tauto].
Qed.

Lemma steps_grow (m m' : machine World) :
  rtc step m m' ->
  (session_id <$> g_state m) `prefix_of` (session_id <$> g_state m') /\
  (session_count (g_state m) <= MAX_SESSIONS ->
   session_count (g_state m') <= MAX_SESSIONS).
Proof.
  induction 1 as [m|m m1 m2 Hs _ [IH1 IH2]].
  - split; [reflexivity|tauto].
  - destruct (step_grows _ _ Hs) as [H1 H2].
    split; [etrans; eassumption|tauto].
Qed.

Lemma reachable_capacity (m : machine World) :
  reachable m -> session_count (g_state m) <= MAX_SESSIONS.
Proof.
  intros [w H]. apply steps_grow in H as [_ H]. apply H.
  unfold session_count, MAX_SESSIONS. simpl. lia.
Qed.

(** Once the table is full its ids are frozen. *)
Lemma full_ids_frozen (m m' : machine World) :
  session_count (g_state m) = MAX_SESSIONS -> rtc step m m' ->
  session_id <$> g_state m' = session_id <$> g_state m.
Proof.
  intros Hfull H. apply steps_grow in H as [[k Hk] Hc].
  assert (Hl : session_count (g_state m') <= MAX_SESSIONS) by (apply Hc; lia).
  apply (f_equal length) in Hk as Hlen.
  rewrite length_app, !length_fmap in Hlen. unfold session_count in *.
  destruct k; [now rewrite app_nil_r in Hk|simpl in Hlen; lia].
Qed.

End Scanner.

(** ** The [list] response *)

Ltac solve_nul_free :=
  repeat first
    [ apply cstr_nul_free
    | apply nul_free_app
    | apply nul_free_take
    | (apply Forall_cons; split; [discriminate|])
    | apply Forall_nil_2 ].

Lemma session_info_nul_free (s : session_context_t) : nul_free (session_info s).
Proof. unfold session_info, snprintf. simpl fst. solve_nul_free. Qed.

Lemma session_info_length (s : session_context_t) :
  (length (session_info s) <= 255)%nat.
Proof. unfold session_info, snprintf. simpl fst. rewrite length_take. lia. Qed.

Lemma list_loop_concat (reg : list session_context_t) (response : list ascii) :
  nul_free response ->
  Z.of_nat (length response) + 255 * Z.of_nat (length reg) < MAX_BUFFER_SIZE ->
  list_loop reg response = response ++ concat (session_info <$> reg) /\
  nul_free (list_loop reg response).
Proof.
  revert response. induction reg as [|s r IH]; intros response Hn Hl; simpl.
  - now rewrite app_nil_r.
  - pose proof (session_info_length s) as Hs.
    pose proof (session_info_nul_free s) as Hsn.
    simpl length in Hl. unfold MAX_BUFFER_SIZE in Hl.
    assert (E : strncat response (session_info s)
                  (size_sub (size_sub MAX_BUFFER_SIZE
                     (Z.of_nat (strlen response))) 1)
                = response ++ session_info s).
    { unfold strncat, strlen. rewrite !cstr_id by assumption.
      rewrite (size_sub_small MAX_BUFFER_SIZE)
        by (unfold MAX_BUFFER_SIZE; rewrite SIZE_MAX1_val; lia).
      rewrite size_sub_small
        by (unfold MAX_BUFFER_SIZE; rewrite SIZE_MAX1_val; lia).
      rewrite take_ge; [reflexivity|]. unfold MAX_BUFFER_SIZE. lia. }
    rewrite E. destruct (IH (response ++ session_info s)) as [H1 H2].
    + now apply nul_free_app.
    + rewrite length_app. unfold MAX_BUFFER_SIZE. lia.
    + split; [|exact H2]. rewrite H1. now rewrite <- app_assoc.
Qed.

Lemma request_text_nonempty (incoming : list ascii) :
  request_text incoming <> [] ->
  (Z.of_nat (length (take (Z.to_nat (MAX_BUFFER_SIZE - 1)) incoming)) <=? 0)
  = false.
Proof.
  unfold request_text. intros H. apply Z.leb_gt.
  destruct (take _ incoming); [contradiction|simpl; lia].
Qed.

(** The server's answer to [list]: one piece per table entry, in slot
    order. *)
Lemma list_response (reg : list session_context_t) (incoming : list ascii) :
  session_count reg <= MAX_SESSIONS ->
  request_text incoming = lit "list" ->
  handle_client_request reg incoming = Some (concat (session_info <$> reg)).
Proof.
  intros Hc Hr. unfold handle_client_request.
  rewrite request_text_nonempty by (rewrite Hr; discriminate).
  unfold request_text in Hr. unfold strcmp0, strncmp0. rewrite Hr.
  rewrite !bool_decide_eq_false_2 by (vm_compute; discriminate).
  rewrite bool_decide_eq_true_2 by reflexivity.
  destruct (list_loop_concat reg []) as [H1 H2]; [constructor| |].
  - unfold session_count, MAX_SESSIONS, MAX_BUFFER_SIZE in *. simpl length. lia.
  - rewrite cstr_id by exact H2. now rewrite H1.
Qed.

(** ** C1: the capacity of the registry *)

Lemma create_if_absent_full (reg : list session_context_t) (id : list ascii)
  (now : Z) :
  session_count reg >= MAX_SESSIONS -> find_session reg id = None ->
  create_if_absent reg id now = (None, reg).
Proof.
  intros Hf Hn. unfold create_if_absent. rewrite Hn.
  now apply create_session_full.
Qed.

Lemma create_if_absent_capacity (reg : list session_context_t)
  (id : list ascii) (now : Z) :
  session_count reg <= MAX_SESSIONS ->
  session_count (snd (create_if_absent reg id now)) <= MAX_SESSIONS.
Proof.
  intros H. unfold create_if_absent.
  destruct (find_session reg id); [exact H|].
  unfold create_session.
  destruct (Z.geb_spec (session_count reg) MAX_SESSIONS); [exact H|].
  simpl. unfold session_count in *. rewrite length_app. simpl. lia.
Qed.

Lemma create_all_capacity (calls : list (list ascii * Z))
  (reg : list session_context_t) :
  session_count reg <= MAX_SESSIONS ->
  session_count (create_all reg calls) <= MAX_SESSIONS.
Proof.
  revert reg. induction calls as [|[id now] rest IH]; intros reg H; simpl.
  - exact H.
  - apply IH. now apply create_if_absent_capacity.
Qed.

(** The find-or-create of the scanner is [create_if_absent]. *)
Lemma scan_step_create_if_absent (World : Type)
  (popen : World -> list ascii -> option process * World)
  (time : World -> Z * World) (line : list ascii) (m : machine World) :
  session_id <$> g_state (scan_step World popen time line m) =
  session_id <$>
    snd (create_if_absent (g_state m) line (fst (time (world m)))).
Proof.
  unfold create_if_absent.
  destruct (scan_step_ids World popen time line m) as [H|(Hn & Hf & H)].
  - rewrite H. destruct (find_session (g_state m) line) eqn:F; [reflexivity|].
    unfold scan_step in H. rewrite F in H. unfold create_session_w in H.
    unfold create_session.
    destruct (session_count (g_state m) >=? MAX_SESSIONS) eqn:E;
      [reflexivity|].
    exfalso. destruct (time (world m)) as [now w'].
    unfold create_session in H. rewrite E in H.
    rewrite lookup_app_r, Nat.sub_diag in H by lia. simpl in H.
    destruct (update_session_context _ _ _ _ _ _) as [[[rc s'] o] w''].
    simpl in H. apply (f_equal length) in H.
    rewrite !length_fmap, length_insert, length_app in H. simpl in H. lia.
  - rewrite H, Hn, create_session_free by exact Hf. simpl.
    now rewrite fmap_app.
Qed.

(** C1. The registry never holds more than [MAX_SESSIONS] (32) entries:
    whatever createIfAbsent calls are made, and in every state the daemon
    can reach.  Once it is full, createIfAbsent of an unseen id returns the
    null result and leaves the registry as it is; from then on the id is
    the id of no entry, so the [list] response, which is made of one piece
    per entry, has none for it.  The scanner drops such a line without a
    trace: no refresh, no clock read, no error. *)
Theorem registry_never_exceeds_capacity :
  (forall calls : list (list ascii * Z),
     session_count (create_all [] calls) <= MAX_SESSIONS) /\
  (forall (World : Type) popen time (m : machine World),
     reachable World popen time m ->
     session_count (g_state m) <= MAX_SESSIONS) /\
  (forall (reg : list session_context_t) (id : list ascii) (now : Z),
     session_count reg = MAX_SESSIONS ->
     find_session reg id = None ->
     create_if_absent reg id now = (None, reg)) /\
  (forall (World : Type) popen time (m m' : machine World) (id : list ascii),
     session_count (g_state m) = MAX_SESSIONS ->
     find_session (g_state m) id = None ->
     rtc (step World popen time) m m' ->
     session_count (g_state m') = MAX_SESSIONS /\
     Forall (fun s => cstr (session_id s) <> cstr id) (g_state m') /\
     handle_client_request (g_state m') (lit "list") =
       Some (concat (session_info <$> g_state m'))) /\
  (forall (World : Type) popen time (m : machine World) (line : list ascii),
     session_count (g_state m) = MAX_SESSIONS ->
     find_session (g_state m) line = None ->
     scan_step World popen time line m = m).
Proof.
  split; [|split; [|split; [|split]]].
  - intros calls. apply create_all_capacity. vm_compute. discriminate.
  - apply reachable_capacity.
  - intros reg id now Hf Hn. apply create_if_absent_full; [lia|exact Hn].
  - intros World popen time m m' id Hf Hn Hs.
    pose proof (full_ids_frozen _ _ _ _ _ Hf Hs) as Hids.
    assert (Hc : session_count (g_state m') = MAX_SESSIONS).
    { apply (f_equal length) in Hids. rewrite !length_fmap in Hids.
      unfold session_count in *. lia. }
    split; [exact Hc|]. split.
    + apply find_session_None. now rewrite (find_session_ids _ _ _ Hids).
    + apply list_response; [lia|reflexivity].
  - intros World popen time m line Hf Hn. unfold scan_step, create_session_w.
    rewrite Hn, Hf. destruct m. reflexivity.
Qed.

(** ** strtok and the lines of a text *)

Lemma split_lf_strchr (s : list ascii) :
  match strchr s LF with
  | Some (a, b) => split_lf s = a :: split_lf b
  | None => split_lf s = [s]
  end.
Proof.
  induction s as [|c r IH]; simpl; [reflexivity|].
  destruct (Ascii.eqb c LF); [reflexivity|].
  destruct (strchr r LF) as [[a b]|]; now rewrite IH.
Qed.

Lemma strchr_length (s : list ascii) (c : ascii) (a b : list ascii) :
  strchr s c = Some (a, b) -> (length b < length s)%nat.
Proof.
  revert a. induction s as [|x r IH]; intros a; simpl; [discriminate|].
  destruct (Ascii.eqb x c); [intros [= <- <-]; lia|].
  destruct (strchr r c) as [[a' b']|]; [|discriminate].
  intros [= <- <-]. specialize (IH a' eq_refl). lia.
Qed.

Lemma tokens_skip_lf (s : list ascii) : tokens (skip_lf s) = tokens s.
Proof.
  induction s as [|c r IH]; simpl; [reflexivity|].
  destruct (Ascii.eqb c LF) eqn:E; [|reflexivity].
  rewrite IH. unfold tokens. simpl. rewrite E. reflexivity.
Qed.

Lemma skip_lf_length (s : list ascii) : (length (skip_lf s) <= length s)%nat.
Proof.
  induction s as [|c r IH]; simpl; [lia|].
  destruct (Ascii.eqb c LF); simpl; lia.
Qed.

Lemma skip_lf_head (s : list ascii) (c : ascii) (r : list ascii) :
  skip_lf s = c :: r -> Ascii.eqb c LF = false.
Proof.
  induction s as [|x t IH]; simpl; [discriminate|].
  destruct (Ascii.eqb x LF) eqn:E; [exact IH|].
  now intros [= <- _].
Qed.

Lemma strtok_spec (s : option (list ascii)) (olds : list ascii) :
  let s0 := match s with Some x => cstr x | None => olds end in
  match strtok s olds with
  | (Some t, r) => tokens s0 = t :: tokens r /\ (length r < length s0)%nat
  | (None, r) => tokens s0 = [] /\ r = []
  end.
Proof.
  intros s0. unfold strtok. fold s0.
  rewrite <- (tokens_skip_lf s0). pose proof (skip_lf_length s0) as Hl.
  destruct (skip_lf s0) as [|c r] eqn:E; [split; reflexivity|].
  apply skip_lf_head in E.
  pose proof (split_lf_strchr (c :: r)) as H.
  pose proof (strchr_length (c :: r) LF) as Hs.
  destruct (strchr (c :: r) LF) as [[a b]|] eqn:S.
  - specialize (Hs a b eq_refl). split; [|simpl in *; lia].
    unfold tokens. rewrite H. simpl in S. rewrite E in S.
    destruct (strchr r LF) as [[a' b']|]; [|discriminate].
    injection S as <- <-. reflexivity.
  - split; [|simpl in *; lia]. unfold tokens. rewrite H. reflexivity.
Qed.

Section Engine.

Variable World : Type.
Variable popen : World -> list ascii -> option process * World.

Local Abbreviation capture_active := (capture_active World popen).
Local Abbreviation pane_step := (pane_step World popen).
Local Abbreviation pane_loop := (pane_loop World popen).
Local Abbreviation pane_lines := (pane_lines World popen).
Local Abbreviation capture_all_panes := (capture_all_panes World popen).
Local Abbreviation engine_on_lines := (engine_on_lines World popen).
Local Abbreviation execute_tmux_command := (execute_tmux_command World popen).

(** With fuel above the length of the text [strtok] still holds, the loop
    is the run over the remaining lines: it never stops for lack of fuel. *)
Lemma pane_loop_lines (fuel : nat) (line : option (list ascii))
  (olds : list ascii) (st : session_context_t * Z * World) :
  (line <> None -> (length olds < fuel)%nat) ->
  snd (pane_loop fuel line olds st) =
  pane_lines (match line with Some l => l :: tokens olds | None => [] end) st.
Proof.
  revert line olds st. induction fuel as [|fuel IH]; intros line olds st Hf.
  - destruct line as [l|]; [|reflexivity]. exfalso.
    assert (length olds < 0)%nat by now apply Hf. lia.
  - destruct line as [l|]; [|reflexivity]. cbn.
    destruct (pane_loop_cond _); [|reflexivity].
    pose proof (strtok_spec None olds) as H. simpl in H.
    destruct (strtok None olds) as [[t|] r].
    + destruct H as [-> Hl]. apply IH. intros _.
      assert (length olds < S fuel)%nat by now apply Hf. lia.
    + destruct H as [-> ->]. now rewrite IH.
Qed.

End Engine.

(** ** The external command runner *)

Lemma read_loop_S (fuel : nat) (fp output : list ascii) (output_size : Z) :
  read_loop (S fuel) fp output output_size =
  let k :=
    Z.to_nat (size_sub (size_sub output_size (Z.of_nat (length output))) 1) in
  if Z.of_nat (length output) <? size_sub output_size 1 then
    if Z.of_nat (length (take k fp)) =? 0 then output
    else read_loop fuel (drop k fp) (output ++ take k fp) output_size
  else output.
Proof. reflexivity. Qed.

Lemma read_loop_spec (fuel : nat) (fp : list ascii) (output_size : Z) :
  0 < output_size < SIZE_MAX1 ->
  (length fp < fuel)%nat ->
  read_loop fuel fp [] output_size = take (Z.to_nat (output_size - 1)) fp.
Proof.
  intros Hn Hf. pose proof SIZE_MAX1_val as HM.
  destruct fuel as [|fuel]; [lia|]. rewrite read_loop_S.
  change (Z.of_nat (length (@nil ascii))) with 0.
  rewrite (size_sub_small output_size 1) by lia.
  rewrite (size_sub_small output_size 0) by lia.
  rewrite (size_sub_small (output_size - 0) 1) by lia.
  replace (output_size - 0 - 1) with (output_size - 1) by lia.
  cbv zeta.
  destruct (Z.ltb_spec 0 (output_size - 1)) as [Hc|Hc].
  2:{ replace (output_size - 1) with 0 by lia. reflexivity. }
  set (chunk := take (Z.to_nat (output_size - 1)) fp).
  destruct (Z.eqb_spec (Z.of_nat (length chunk)) 0) as [Hz|Hz].
  { destruct chunk; [reflexivity|simpl in Hz; lia]. }
  destruct fuel as [|fuel].
  { destruct fp; [|simpl in Hf; lia]. subst chunk.
    rewrite take_nil in Hz. simpl in Hz. lia. }
  rewrite read_loop_S. rewrite app_nil_l.
  rewrite (size_sub_small output_size 1) by lia. cbv zeta.
  destruct (Z.ltb_spec (Z.of_nat (length chunk)) (output_size - 1)) as [Hs|Hs];
    [|reflexivity].
  assert (Hd : drop (Z.to_nat (output_size - 1)) fp = []).
  { apply drop_ge. subst chunk. rewrite length_take in Hs. lia. }
  rewrite Hd, take_nil. reflexivity.
Qed.

Lemma chomp_snoc (d : list ascii) : chomp (d ++ [LF]) = d.
Proof.
  unfold chomp. rewrite last_snoc. simpl.
  rewrite length_app. simpl. rewrite take_app_length'; [reflexivity|lia].
Qed.

Lemma chomp_other (data : list ascii) :
  last data <> Some LF -> chomp data = data.
Proof.
  unfold chomp. destruct (last data) as [c|]; [|reflexivity].
  destruct (Ascii.eqb_spec c LF) as [->|]; [contradiction|reflexivity].
Qed.

Lemma chomp_length (data : list ascii) : (length (chomp data) <= length data)%nat.
Proof.
  unfold chomp. destruct (last data) as [c|]; [|lia].
  destruct (Ascii.eqb c LF); [rewrite length_take|]; lia.
Qed.

Section Runner.

Variable World : Type.
Variable popen : World -> list ascii -> option process * World.

Local Abbreviation execute_tmux_command := (execute_tmux_command World popen).
Local Abbreviation capture_all_panes := (capture_all_panes World popen).
Local Abbreviation engine_on_lines := (engine_on_lines World popen).

Lemma execute_tmux_command_spec (w : World) (cmd output : list ascii)
  (output_size : Z) :
  0 < output_size < SIZE_MAX1 ->
  execute_tmux_command w cmd output output_size =
  match popen w cmd with
  | (Some fp, w') =>
      (ERROR_NONE,
       chomp (take (Z.to_nat (output_size - 1)) (p_stdout fp)), w')
  | (None, w') => (ERROR_TMUX_CMD, output, w')
  end.
Proof.
  intros Hn. unfold execute_tmux_command.
  destruct (popen w cmd) as [[fp|] w']; [|reflexivity].
  rewrite read_loop_spec by (assumption || lia). reflexivity.
Qed.

(** The engine is the run over the lines of the listing. *)
Lemma capture_all_panes_spec (session : session_context_t) (w : World)
  (olds : list ascii) :
  match popen w (list_panes_cmd (session_id session)) with
  | (Some fp, w1) =>
      fst (fst (fst (capture_all_panes session w olds))) = ERROR_NONE /\
      (snd (fst (fst (capture_all_panes session w olds))),
       snd (capture_all_panes session w olds)) =
      engine_on_lines session w1 (tokens (listing_of fp))
  | (None, w1) =>
      capture_all_panes session w olds =
      (ERROR_TMUX_CMD, set_scrollback session [] 0, olds, w1)
  end.
Proof.
  unfold capture_all_panes.
  rewrite execute_tmux_command_spec by (rewrite SIZE_MAX1_val; lia).
  simpl session_id.
  destruct (popen w _) as [[fp|] w1]; [|reflexivity].
  change (Z.to_nat (2048 - 1)) with 2047%nat.
  set (pane_list := chomp (take 2047 (p_stdout fp))).
  assert (HL : listing_of fp = cstr pane_list) by reflexivity.
  unfold strlen. rewrite <- HL.
  destruct (Nat.eqb_spec (length (listing_of fp)) 0) as [Hz|Hz].
  - destruct (listing_of fp); [|discriminate]. unfold engine_on_lines.
    simpl. destruct (capture_active _ _ _ _) as [s' w2]. split; reflexivity.
  - pose proof (strtok_spec (Some pane_list) olds) as H. simpl in H.
    rewrite <- HL in H.
    pose proof (cstr_length pane_list) as Hc. rewrite <- HL in Hc.
    destruct (strtok (Some pane_list) olds) as [line olds1].
    pose proof (pane_loop_lines World popen (S (length pane_list)) line olds1
                  (set_scrollback session [] 0, 0, w1)) as HP.
    assert (HT : tokens (listing_of fp) =
                 match line with Some l => l :: tokens olds1 | None => [] end).
    { destruct line; tauto. }
    rewrite <- HT in HP. unfold engine_on_lines. rewrite <- HP.
    2:{ intros Hne. destruct line; [|contradiction]. lia. }
    destruct (pane_loop _ _ _ _ _ _) as [[line' olds2] [[s' pc] w2]].
    simpl. destruct (pc =? 0); [|split; reflexivity].
    destruct (capture_active _ _ _ _) as [s'' w3]. split; reflexivity.
Qed.

End Runner.

(** ** C2, C3: find after create, and distinct ids *)

Lemma find_session_app (a b : list session_context_t) (id : list ascii) :
  find_session (a ++ b) id =
  match find_session a id with
  | Some i => Some i
  | None => (fun j => (length a + j)%nat) <$> find_session b id
  end.
Proof.
  induction a as [|s r IH]; simpl.
  - destruct (find_session b id); reflexivity.
  - rewrite !find_session_cons. destruct (strcmp0 _ _); [reflexivity|].
    rewrite IH. destruct (find_session r id); simpl; [reflexivity|].
    destruct (find_session b id); reflexivity.
Qed.

Lemma strncpy_short (id : list ascii) (n : nat) :
  (length (cstr id) <= n)%nat -> cstr (strncpy id n) = cstr id.
Proof.
  intros H. unfold strncpy. rewrite take_ge by exact H. apply cstr_idemp.
Qed.

(** For an id that fits the 63 characters of the id field, creation is
    idempotent: the entry is found again, and is returned again. *)
Lemma create_if_absent_found_again (reg reg' : list session_context_t)
  (id : list ascii) (now now' : Z) (i : nat) :
  (length (cstr id) <= 63)%nat ->
  create_if_absent reg id now = (Some i, reg') ->
  find_session reg' id = Some i /\
  create_if_absent reg' id now' = (Some i, reg').
Proof.
  intros Hlen H.
  assert (F : find_session reg' id = Some i).
  { unfold create_if_absent in H.
    destruct (find_session reg id) as [j|] eqn:E.
    - injection H as <- <-. exact E.
    - unfold create_session in H.
      destruct (session_count reg >=? MAX_SESSIONS); [discriminate|].
      injection H as <- <-. rewrite find_session_app, E.
      rewrite find_session_cons. simpl.
      assert (S : strcmp0 (strncpy id 63) id = true)
        by now apply strcmp0_true, strncpy_short.
      rewrite S. simpl. f_equal. lia. }
  split; [exact F|]. unfold create_if_absent. now rewrite F.
Qed.

(** For such ids creation also keeps the stored ids pairwise distinct. *)
Lemma create_if_absent_NoDup (reg : list session_context_t) (id : list ascii)
  (now : Z) :
  (length (cstr id) <= 63)%nat ->
  NoDup (session_id <$> reg) ->
  NoDup (session_id <$> snd (create_if_absent reg id now)).
Proof.
  intros Hlen Hnd. unfold create_if_absent.
  destruct (find_session reg id) eqn:E; [exact Hnd|].
  unfold create_session.
  destruct (session_count reg >=? MAX_SESSIONS); [exact Hnd|].
  simpl. rewrite fmap_app. apply NoDup_app. split; [exact Hnd|].
  split; [|apply NoDup_singleton].
  intros x Hx Hx'. apply list_elem_of_singleton in Hx'. subst x.
  apply list_elem_of_fmap in Hx as (s & Hs & Hin).
  apply find_session_None in E. rewrite Forall_forall in E.
  apply (E s Hin). rewrite <- Hs. now apply strncpy_short.
Qed.

(** C2, at an id of 64 characters.  createIfAbsent accepts the id (it
    returns slot 0), yet a find with the same id returns nothing, and a
    second createIfAbsent with the same id does not return slot 0: it makes
    slot 1. *)
Theorem create_if_absent_long_id_not_found_again :
  let first := create_if_absent [] long_name 1700000000 in
  let second := create_if_absent (snd first) long_name 1700000002 in
  fst first = Some 0%nat /\
  find_session (snd first) long_name = None /\
  fst second = Some 1%nat /\
  session_count (snd second) = 2.
Proof. vm_compute. repeat split; reflexivity. Qed.

(** C3, at a session whose name has 64 characters.  Two scans of the same,
    unchanged multiplexer run to their end and leave two entries with the
    same stored id in a reachable registry. *)
Theorem long_session_name_stored_twice :
  let m1 := tmux_scan 8 (initial _ long_name_world) in
  let m2 := tmux_scan 8 m1 in
  reachable _ tmux_popen tmux_time m2 /\
  fst (snd (scan_tmux_sessions _ tmux_popen tmux_time 8 m1)) = None /\
  session_id <$> g_state m2 =
    [replicate 63 "a"%char; replicate 63 "a"%char] /\
  ~ NoDup (session_id <$> g_state m2).
Proof.
  intros m1 m2.
  assert (E : session_id <$> g_state m2 =
              [replicate 63 "a"%char; replicate 63 "a"%char])
    by (vm_compute; reflexivity).
  split; [|split; [|split]].
  - exists long_name_world. eapply rtc_l; [apply step_scan|].
    eapply rtc_l; [apply step_scan|]. apply rtc_refl.
  - vm_compute. reflexivity.
  - exact E.
  - rewrite E. intros H. apply NoDup_cons in H as [H _]. apply H. left.
Qed.

(** ** C7: the external command runner *)

(** C7. With room for [output_size] bytes the runner fails exactly when
    the process cannot be started; otherwise it returns ERROR_NONE whatever
    the exit status, and the bytes it leaves in front of the terminator
    are the first [output_size - 1] bytes of standard output (anything
    beyond is dropped without an error) with one final line feed removed
    if there is one, and no more than one. *)
Theorem runner_contract (World : Type)
  (popen : World -> list ascii -> option process * World)
  (w : World) (cmd output : list ascii) (output_size : Z) :
  0 < output_size < SIZE_MAX1 ->
  match popen w cmd with
  | (None, w') =>
      execute_tmux_command World popen w cmd output output_size =
      (ERROR_TMUX_CMD, output, w')
  | (Some fp, w') =>
      let data := take (Z.to_nat (output_size - 1)) (p_stdout fp) in
      exists out,
        execute_tmux_command World popen w cmd output output_size =
        (ERROR_NONE, out, w') /\
        Z.of_nat (length out) <= output_size - 1 /\
        (forall d, data = d ++ [LF] -> out = d) /\
        (last data <> Some LF -> out = data)
  end.
Proof.
  intros Hn. rewrite execute_tmux_command_spec by exact Hn.
  destruct (popen w cmd) as [[fp|] w']; [|reflexivity].
  intros data. exists (chomp data). split; [reflexivity|]. split.
  - pose proof (chomp_length data) as H. subst data.
    rewrite length_take in H. lia.
  - split.
    + intros d ->. apply chomp_snoc.
    + apply chomp_other.
Qed.

(** C7 at a command that prints two lines and a blank line and exits with status 1, read into 2048 and into 12 bytes, and at a command that cannot be started. *)
Lemma runner_contract_witness :
  0 < 2048 < SIZE_MAX1 /\
  execute_tmux_command unit failing_popen tt failing_cmd [] 2048 =
  (ERROR_NONE, lit "0.0:a:sh" ++ [LF] ++ lit "0.1:b:sh" ++ [LF], tt) /\
  execute_tmux_command unit failing_popen tt failing_cmd [] 12 =
  (ERROR_NONE, lit "0.0:a:sh" ++ [LF] ++ lit "0.", tt) /\
  execute_tmux_command unit failing_popen tt (lit "tmux") [] 2048 =
  (ERROR_TMUX_CMD, [], tt).
Proof.
  assert (H1 : 0 < 2048 < SIZE_MAX1) by (vm_compute; split; reflexivity).
  assert (H2 : 0 < 12 < SIZE_MAX1) by (vm_compute; split; reflexivity).
  split; [exact H1|]. split; [|split].
  - destruct (runner_contract unit failing_popen tt failing_cmd [] 2048 H1)
      as (out & E & _ & Hd & _).
    rewrite E. f_equal. f_equal. apply Hd. reflexivity.
  - destruct (runner_contract unit failing_popen tt failing_cmd [] 12 H2)
      as (out & E & _ & _ & Hd).
    rewrite E. f_equal. f_equal. apply Hd. vm_compute. discriminate.
  - exact (runner_contract unit failing_popen tt (lit "tmux") [] 2048 H1).
Defined.

(** C1 at a full table of 32 sessions and a multiplexer with one more session, "zz". *)
Lemma registry_never_exceeds_capacity_witness :
  session_count full_registry = MAX_SESSIONS /\
  find_session full_registry (lit "zz") = None /\
  create_if_absent full_registry (lit "zz") 1700000000 =
    (None, full_registry) /\
  session_count (g_state (tmux_scan 8 full_machine)) = MAX_SESSIONS /\
  Forall (fun s => cstr (session_id s) <> cstr (lit "zz"))
         (g_state (tmux_scan 8 full_machine)) /\
  handle_client_request (g_state (tmux_scan 8 full_machine)) (lit "list") =
    Some (concat (session_info <$> g_state (tmux_scan 8 full_machine))) /\
  scan_step _ tmux_popen tmux_time (lit "zz") full_machine = full_machine.
Proof.
  destruct registry_never_exceeds_capacity as (_ & _ & H3 & H4 & H5).
  assert (Hc : session_count full_registry = MAX_SESSIONS) by reflexivity.
  assert (Hf : find_session full_registry (lit "zz") = None) by reflexivity.
  split; [exact Hc|]. split; [exact Hf|]. split.
  - exact (H3 full_registry (lit "zz") 1700000000 Hc Hf).
  - assert (R : rtc (step _ tmux_popen tmux_time) full_machine
                    (tmux_scan 8 full_machine))
      by (apply rtc_once; apply step_scan).
    destruct (H4 _ tmux_popen tmux_time full_machine _ (lit "zz") Hc Hf R)
      as (A & B & C).
    split; [exact A|]. split; [exact B|]. split; [exact C|].
    exact (H5 _ tmux_popen tmux_time full_machine (lit "zz") Hc Hf).
Defined.

(** ** The pane capture engine *)

Lemma parse_pane_line_bounds (line : list ascii) :
  (length (line_pane_id line) <= 31)%nat /\
  (length (line_title line) <= 63)%nat.
Proof.
  unfold line_pane_id, line_title, parse_pane_line, strncpy.
  destruct (strchr line COLON) as [[before after]|]; simpl.
  - destruct (strchr after COLON) as [[title command]|]; simpl;
      rewrite !length_take; lia.
  - rewrite length_take. lia.
Qed.

Lemma pane_header_length (pane_id pane_title : list ascii) :
  length (pane_header pane_id pane_title) =
  (18 + length (cstr pane_id) + length (cstr pane_title))%nat.
Proof. unfold pane_header. rewrite !length_app. simpl. lia. Qed.

Lemma pane_loop_cond_spec (s : session_context_t) :
  0 <= scrollback_len s < SIZE_MAX1 ->
  pane_loop_cond s = true <-> 500 < MAX_BUFFER_SIZE - scrollback_len s.
Proof.
  intros H. unfold pane_loop_cond. rewrite to_size_t_small by exact H.
  rewrite size_sub_small by (vm_compute; split; [discriminate|reflexivity]).
  rewrite Z.ltb_lt. lia.
Qed.

(** A captured pane: the whole header, then the content cut to the room
    that is left. *)
Lemma append_pane_spec (s : session_context_t)
  (pane_id pane_title content : list ascii) :
  scrollback_len s = Z.of_nat (length (scrollback s)) ->
  500 < MAX_BUFFER_SIZE - scrollback_len s ->
  (length (cstr pane_id) <= 31)%nat ->
  (length (cstr pane_title) <= 63)%nat ->
  content <> [] ->
  let header := pane_header pane_id pane_title in
  let room :=
    Z.to_nat (MAX_BUFFER_SIZE - 1 - scrollback_len s
              - Z.of_nat (length header)) in
  let buf := scrollback s ++ header ++ take room content in
  append_pane s pane_id pane_title content (Z.of_nat (length content)) =
  set_scrollback s buf (Z.of_nat (length buf)).
Proof.
  intros Hlen Hroom Hid Htitle Hne header room buf.
  pose proof (pane_header_length pane_id pane_title) as Hh. fold header in Hh.
  pose proof SIZE_MAX1_val as HM.
  assert (HB : MAX_BUFFER_SIZE = 16384) by reflexivity.
  assert (Hc : (0 < length content)%nat) by (destruct content; [done|simpl; lia]).
  unfold append_pane. fold header.
  rewrite to_size_t_small by lia.
  rewrite size_sub_small by lia.
  unfold snprintf.
  rewrite (take_ge header) by lia.
  assert (E1 : (0 <? Z.of_nat (length header)) &&
               (to_size_t (scrollback_len s + Z.of_nat (length header))
                  <? MAX_BUFFER_SIZE) = true).
  { rewrite to_size_t_small by lia. apply andb_true_intro.
    split; [apply Z.ltb_lt|apply Z.ltb_lt]; lia. }
  rewrite E1. clear E1.
  rewrite to_size_t_small by lia.
  rewrite (size_sub_small MAX_BUFFER_SIZE) by lia.
  rewrite size_sub_small by lia.
  unfold write_at.
  set (len1 := scrollback_len s + Z.of_nat (length header)).
  set (avail := MAX_BUFFER_SIZE - len1 - 1).
  assert (Hroom' : room = Z.to_nat avail) by (subst room avail len1; lia).
  assert (T1 : take (Z.to_nat (scrollback_len s)) (scrollback s) = scrollback s)
    by (apply take_ge; lia).
  assert (T2 : take (Z.to_nat len1) (scrollback s ++ header) =
               scrollback s ++ header)
    by (apply take_ge; rewrite length_app; subst len1; lia).
  rewrite T1.
  destruct (Z.ltb_spec (Z.of_nat (length content)) avail) as [Hlt|Hge].
  - assert (P : (0 <? Z.of_nat (length content)) = true) by (apply Z.ltb_lt; lia).
    rewrite P, T2. unfold set_scrollback. subst buf. rewrite Hroom'.
    rewrite Nat2Z.id.
    rewrite (take_ge content (Z.to_nat avail)) by lia.
    rewrite take_ge by lia.
    rewrite <- app_assoc. f_equal. rewrite !length_app. subst len1. lia.
  - assert (P : (0 <? avail) = true) by (apply Z.ltb_lt; subst avail len1; lia).
    rewrite P, T2. unfold set_scrollback. subst buf. rewrite Hroom'.
    rewrite <- app_assoc. f_equal.
    rewrite !length_app, length_take. subst len1 avail. lia.
Qed.

Section EngineProps.

Variable World : Type.
Variable popen : World -> list ascii -> option process * World.

Local Abbreviation capture_active := (capture_active World popen).
Local Abbreviation pane_step := (pane_step World popen).
Local Abbreviation pane_lines := (pane_lines World popen).
Local Abbreviation engine_on_lines := (engine_on_lines World popen).
Local Abbreviation capture_all_panes := (capture_all_panes World popen).
Local Abbreviation all_skipped := (all_skipped World popen).

Lemma pane_step_unfold (line : list ascii) (s : session_context_t) (pc : Z)
  (w : World) :
  pane_step line (s, pc, w) =
  if self_excluded (line_title line) then (s, pc, w)
  else
    match popen w (capture_pane_cmd (session_id s) (line_pane_id line)) with
    | (Some fp, w') =>
        let temp_content := take (Z.to_nat (MAX_BUFFER_SIZE - 1)) (p_stdout fp) in
        if 10 <? Z.of_nat (length temp_content)
        then (append_pane s (line_pane_id line) (line_title line) temp_content
                (Z.of_nat (length temp_content)), pc + 1, w')
        else (s, pc, w')
    | (None, w') => (s, pc, w')
    end.
Proof.
  unfold pane_step, line_title, line_pane_id.
  destruct (parse_pane_line line) as [[pid title] cmd]. simpl.
  destruct (self_excluded title); [reflexivity|].
  destruct (popen w _) as [[fp|] w']; reflexivity.
Qed.

Lemma pane_step_excluded (line : list ascii)
  (st : session_context_t * Z * World) :
  self_excluded (line_title line) = true -> pane_step line st = st.
Proof.
  intros H. destruct st as [[s pc] w]. rewrite pane_step_unfold. now rewrite H.
Qed.

Lemma pane_lines_cons (l : list ascii) (ls : list (list ascii))
  (st : session_context_t * Z * World) :
  pane_lines (l :: ls) st =
  if pane_loop_cond (fst (fst st)) then pane_lines ls (pane_step l st) else st.
Proof. reflexivity. Qed.

Lemma pane_lines_stop (lines : list (list ascii))
  (st : session_context_t * Z * World) :
  pane_loop_cond (fst (fst st)) = false -> pane_lines lines st = st.
Proof. intros H. destruct lines; simpl; [reflexivity|now rewrite H]. Qed.

Lemma pane_lines_filter (lines : list (list ascii))
  (st : session_context_t * Z * World) :
  pane_lines lines st =
  pane_lines (filter (fun l => self_excluded (line_title l) = false) lines) st.
Proof.
  revert st. induction lines as [|l ls IH]; intros st; [reflexivity|].
  destruct (self_excluded (line_title l)) eqn:E.
  - rewrite filter_cons_False by congruence. rewrite <- IH.
    rewrite pane_lines_cons.
    rewrite pane_step_excluded by exact E.
    destruct (pane_loop_cond _) eqn:C; [reflexivity|].
    symmetry. now apply pane_lines_stop.
  - rewrite filter_cons_True by exact E. rewrite !pane_lines_cons.
    destruct (pane_loop_cond _); [apply IH|reflexivity].
Qed.

(** *** The recorded length *)

Lemma capture_active_ok (s : session_context_t) (w : World) :
  scrollback_ok s -> scrollback_ok (fst (capture_active s w)).
Proof.
  intros H. unfold capture_active.
  destruct (popen w _) as [[fp|] w']; [|exact H]. unfold fread.
  rewrite size_sub_small by (vm_compute; split; [discriminate|reflexivity]).
  split; [reflexivity|]. cbn [fst scrollback scrollback_len set_scrollback].
  rewrite length_take. unfold MAX_BUFFER_SIZE. lia.
Qed.

Lemma pane_step_ok (line : list ascii) (s : session_context_t) (pc : Z)
  (w : World) :
  scrollback_ok s -> pane_loop_cond s = true ->
  scrollback_ok (fst (fst (pane_step line (s, pc, w)))).
Proof.
  intros [H1 H2] Hc. rewrite pane_step_unfold.
  destruct (self_excluded _); [now split|].
  destruct (popen w _) as [[fp|] w']; [|now split]. cbv zeta.
  set (content := take _ (p_stdout fp)).
  destruct (Z.ltb_spec 10 (Z.of_nat (length content))) as [Hlong|]; [|now split].
  simpl fst.
  apply pane_loop_cond_spec in Hc; [|rewrite SIZE_MAX1_val; unfold MAX_BUFFER_SIZE in *; lia].
  destruct (parse_pane_line_bounds line) as [Hp Ht].
  pose proof (cstr_length (line_pane_id line)).
  pose proof (cstr_length (line_title line)).
  rewrite append_pane_spec; try assumption; try lia.
  2:{ intros E. rewrite E in Hlong. simpl in Hlong. lia. }
  unfold scrollback_ok. cbn [scrollback scrollback_len set_scrollback].
  split; [reflexivity|].
  rewrite !length_app, length_take, pane_header_length.
  unfold MAX_BUFFER_SIZE in *. lia.
Qed.

Lemma pane_lines_ok (lines : list (list ascii)) (s : session_context_t)
  (pc : Z) (w : World) :
  scrollback_ok s -> scrollback_ok (fst (fst (pane_lines lines (s, pc, w)))).
Proof.
  revert s pc w. induction lines as [|l ls IH]; intros s pc w H; [exact H|].
  rewrite pane_lines_cons. cbn [fst].
  destruct (pane_loop_cond s) eqn:C; [|exact H].
  pose proof (pane_step_ok l s pc w H C) as H'.
  destruct (pane_step l (s, pc, w)) as [[s' pc'] w']. now apply IH.
Qed.

Lemma engine_on_lines_ok (session : session_context_t) (w : World)
  (lines : list (list ascii)) :
  scrollback_ok (fst (engine_on_lines session w lines)).
Proof.
  unfold engine_on_lines.
  assert (H0 : scrollback_ok (set_scrollback session [] 0))
    by (split; [reflexivity|reflexivity]).
  pose proof (pane_lines_ok lines _ 0 w H0) as H.
  destruct (pane_lines lines _) as [[s' pc] w']. simpl in H.
  destruct (pc =? 0); [|exact H]. now apply capture_active_ok.
Qed.

Lemma capture_all_panes_ok (session : session_context_t) (w : World)
  (olds : list ascii) :
  scrollback_ok (snd (fst (fst (capture_all_panes session w olds)))).
Proof.
  pose proof (capture_all_panes_spec World popen session w olds) as H.
  destruct (popen w _) as [[fp|] w1].
  - destruct H as [_ H]. pose proof (engine_on_lines_ok session w1
                                       (tokens (listing_of fp))) as H'.
    rewrite <- H in H'. exact H'.
  - rewrite H. split; reflexivity.
Qed.

(** *** Nothing captured: the fallback *)

Lemma pane_lines_all_skipped (lines : list (list ascii))
  (s : session_context_t) (w w' : World) :
  scrollback_len s = 0 ->
  all_skipped (session_id s) w lines = Some w' ->
  pane_lines lines (s, 0, w) = (s, 0, w').
Proof.
  intros Hz. revert w. induction lines as [|l ls IH]; intros w.
  - simpl. now intros [= ->].
  - rewrite pane_lines_cons. cbn [fst all_skipped].
    assert (C : pane_loop_cond s = true).
    { apply pane_loop_cond_spec; rewrite Hz; [|reflexivity].
      vm_compute. split; [discriminate|reflexivity]. }
    rewrite C, pane_step_unfold. unfold line_title, line_pane_id.
    destruct (parse_pane_line l) as [[pid title] cmd]. simpl.
    destruct (self_excluded title); [apply IH|].
    destruct (popen w _) as [[fp|] w1]; [|apply IH].
    destruct (Nat.leb_spec (length (p_stdout fp)) 10) as [Hs|]; [|discriminate].
    cbv zeta.
    assert (E : (10 <? Z.of_nat (length (take (Z.to_nat (MAX_BUFFER_SIZE - 1))
                                           (p_stdout fp)))) = false)
      by (apply Z.ltb_ge; rewrite length_take; lia).
    rewrite E. apply IH.
Qed.

End EngineProps.

(** ** C4: self-exclusion *)

(** C4, against the claim as stated.  The session's only pane is titled
    "muxgeist", so the loop skips it and captures nothing; the fallback then
    captures the active pane, which is that very pane, and the scrollback is
    the screen of the self-excluded pane. *)
Lemma fallback_captures_self_excluded_pane :
  let r := capture_all_panes _ tmux_popen main_session ui_only_world [] in
  tokens (listing_of (mk_process (lit "0.0:muxgeist:bash" ++ [LF]) 0)) =
    [lit "0.0:muxgeist:bash"] /\
  fst (tmux_popen ui_only_world (list_panes_cmd (lit "main"))) =
    Some (mk_process (lit "0.0:muxgeist:bash" ++ [LF]) 0) /\
  self_excluded (line_title (lit "0.0:muxgeist:bash")) = true /\
  fst (tmux_popen ui_only_world (capture_pane_cmd (lit "main") (lit "0.0"))) =
    Some (mk_process ui_screen 0) /\
  scrollback (snd (fst (fst r))) = ui_screen /\
  ui_screen <> [].
Proof. vm_compute. repeat split; try reflexivity. discriminate. Qed.

(** C4, as amended.  The pane loop never captures a self-excluded pane: a
    line whose title contains "muxgeist" starts no capture and changes
    neither the scrollback nor the pane counter, so the engine's result is
    the one it computes for the listing without those lines.  Nothing is
    said of the fallback, which captures the active pane whatever its
    title. *)
Theorem self_excluded_panes_skipped_by_loop :
  (forall (World : Type) popen (line : list ascii)
          (st : session_context_t * Z * World),
     self_excluded (line_title line) = true ->
     pane_step World popen line st = st) /\
  (forall (World : Type) popen (session : session_context_t) (w w1 : World)
          (olds : list ascii) (fp : process),
     popen w (list_panes_cmd (session_id session)) = (Some fp, w1) ->
     let r := capture_all_panes World popen session w olds in
     (snd (fst (fst r)), snd r) =
     engine_on_lines World popen session w1
       (filter (fun l => self_excluded (line_title l) = false)
               (tokens (listing_of fp)))).
Proof.
  split.
  - intros World popen line st. apply pane_step_excluded.
  - intros World popen session w w1 olds fp Hp r. subst r.
    pose proof (capture_all_panes_spec World popen session w olds) as H.
    rewrite Hp in H. destruct H as [_ ->].
    unfold engine_on_lines. now rewrite <- pane_lines_filter.
Qed.

(** C4 (amended) at a session with the UI pane 0.0 and an editor pane 0.1. *)
Lemma self_excluded_panes_skipped_by_loop_witness :
  self_excluded (line_title (lit "0.0:muxgeist:sh")) = true /\
  pane_step unit two_pane_popen (lit "0.0:muxgeist:sh") (main_session, 0, tt)
    = (main_session, 0, tt) /\
  two_pane_popen tt (list_panes_cmd (session_id main_session)) =
    (Some two_pane_listing, tt) /\
  (let r := capture_all_panes unit two_pane_popen main_session tt [] in
   (snd (fst (fst r)), snd r) =
   engine_on_lines unit two_pane_popen main_session tt
     (filter (fun l => self_excluded (line_title l) = false)
             (tokens (listing_of two_pane_listing)))).
Proof.
  destruct self_excluded_panes_skipped_by_loop as [H1 H2].
  assert (E : self_excluded (line_title (lit "0.0:muxgeist:sh")) = true)
    by reflexivity.
  assert (P : two_pane_popen tt (list_panes_cmd (session_id main_session)) =
              (Some two_pane_listing, tt)) by reflexivity.
  split; [exact E|]. split; [|split; [exact P|]].
  - exact (H1 unit two_pane_popen _ (main_session, 0, tt) E).
  - exact (H2 unit two_pane_popen main_session tt tt [] two_pane_listing P).
Defined.

(** ** C5: the fallback to the active pane *)

(** C5. When every line of the pane listing is self-excluded, or reports
    at most 10 bytes (or its capture cannot be started), the engine
    captures the active pane and stores its output verbatim, up to the
    room of the buffer, in place of whatever the buffer held; so the
    scrollback is not empty when the active pane prints anything. *)
Theorem fallback_to_active_pane (World : Type)
  (popen : World -> list ascii -> option process * World)
  (session : session_context_t) (w w1 w2 : World) (olds : list ascii)
  (fp : process) :
  popen w (list_panes_cmd (session_id session)) = (Some fp, w1) ->
  listing_of fp <> [] ->
  all_skipped World popen (session_id session) w1 (tokens (listing_of fp))
    = Some w2 ->
  let r := capture_all_panes World popen session w olds in
  fst (fst (fst r)) = ERROR_NONE /\
  (snd (fst (fst r)), snd r) =
    capture_active World popen (set_scrollback session [] 0) w2 /\
  (forall (active : process) (w3 : World),
     popen w2 (capture_active_cmd (session_id session)) = (Some active, w3) ->
     let text := take (Z.to_nat (MAX_BUFFER_SIZE - 1)) (p_stdout active) in
     scrollback (snd (fst (fst r))) = text /\
     scrollback_len (snd (fst (fst r))) = Z.of_nat (length text) /\
     (p_stdout active <> [] ->
      scrollback (snd (fst (fst r))) <> [] /\
      0 < scrollback_len (snd (fst (fst r))))).
Proof.
  intros Hp _ Hs r. subst r.
  pose proof (capture_all_panes_spec World popen session w olds) as H.
  rewrite Hp in H. destruct H as [Hrc H]. split; [exact Hrc|].
  assert (E : engine_on_lines World popen session w1 (tokens (listing_of fp))
              = capture_active World popen (set_scrollback session [] 0) w2).
  { unfold engine_on_lines.
    rewrite (pane_lines_all_skipped World popen _ (set_scrollback session [] 0)
               w1 w2); [reflexivity|reflexivity|exact Hs]. }
  rewrite E in H. split; [exact H|].
  intros active w3 Ha text. apply (f_equal fst) in H. cbn [fst] in H.
  rewrite H. unfold capture_active. cbn [session_id set_scrollback].
  rewrite Ha. unfold fread.
  change (Z.to_nat (size_sub MAX_BUFFER_SIZE 1))
    with (Z.to_nat (MAX_BUFFER_SIZE - 1)).
  fold text. cbn [fst scrollback scrollback_len set_scrollback].
  split; [reflexivity|]. split; [reflexivity|].
  intros Hne. assert (Ht : text <> []).
  { subst text. destruct (p_stdout active); [contradiction|].
    destruct (Z.to_nat (MAX_BUFFER_SIZE - 1)) eqn:K;
      [unfold MAX_BUFFER_SIZE in K; lia|discriminate]. }
  split; [exact Ht|]. destruct text; [contradiction|simpl; lia].
Qed.

(** C5 at a session whose only pane shows a two-byte prompt. *)
Lemma fallback_to_active_pane_witness :
  let r := capture_all_panes _ tmux_popen main_session prompt_world [] in
  fst (fst (fst r)) = ERROR_NONE /\
  scrollback (snd (fst (fst r))) = lit "$ " /\
  scrollback_len (snd (fst (fst r))) = 2.
Proof.
  intros r.
  assert (P : tmux_popen prompt_world (list_panes_cmd (session_id main_session))
              = (Some (mk_process (lit "0.0:bash:bash" ++ [LF]) 0),
                 prompt_world)) by reflexivity.
  assert (A : tmux_popen prompt_world
                (capture_active_cmd (session_id main_session))
              = (Some (mk_process (lit "$ ") 0), prompt_world))
    by reflexivity.
  destruct (fallback_to_active_pane _ tmux_popen main_session prompt_world
              prompt_world prompt_world []
              (mk_process (lit "0.0:bash:bash" ++ [LF]) 0) P)
    as (H1 & _ & H3).
  - vm_compute. discriminate.
  - reflexivity.
  - destruct (H3 _ _ A) as (H4 & H5 & _).
    split; [exact H1|]. split; [exact H4|exact H5].
Defined.

(** ** C6: truncation and the bound on the recorded length *)



(** ** C8: the protocol table *)

Lemma cstr_drop (n : nat) (buf : list ascii) :
  (n <= length (cstr buf))%nat -> cstr (drop n buf) = drop n (cstr buf).
Proof.
  revert buf. induction n as [|n IH]; intros buf H; [reflexivity|].
  destruct buf as [|c r]; simpl in *; [lia|].
  destruct (Ascii.eqb c NUL); simpl in *; [lia|]. apply IH. lia.
Qed.

Lemma find_session_cstr (reg : list session_context_t) (a b : list ascii) :
  cstr a = cstr b -> find_session reg a = find_session reg b.
Proof.
  intros H. induction reg as [|s r IH]; [reflexivity|].
  rewrite !find_session_cons, IH. unfold strcmp0. now rewrite H.
Qed.

Lemma incoming_nonempty (incoming : list ascii) :
  incoming <> [] ->
  (Z.of_nat (length (take (Z.to_nat (MAX_BUFFER_SIZE - 1)) incoming)) <=? 0)
  = false.
Proof.
  intros H. apply Z.leb_gt. destruct incoming as [|c r]; [contradiction|].
  destruct (Z.to_nat (MAX_BUFFER_SIZE - 1)) eqn:K;
    [unfold MAX_BUFFER_SIZE in K; lia|simpl; lia].
Qed.

Lemma status_text (n : nat) :
  (n <= 32)%nat ->
  let text := lit "OK: " ++ fmt_d (Z.of_nat n) ++ lit " sessions tracked" in
  cstr (fst (snprintf RESPONSE_SIZE text)) = text.
Proof.
  intros H.
  do 33 (destruct n as [|n]; [vm_compute; reflexivity|]). lia.
Qed.

(** The [context:] request: the id is what follows the first 8 bytes. *)
Lemma context_dispatch (reg : list session_context_t)
  (incoming id : list ascii) :
  request_text incoming = lit "context:" ++ id ->
  handle_client_request reg incoming =
  Some (cstr
    match find_session reg id with
    | Some i =>
        match reg !! i with
        | Some session => fst (snprintf RESPONSE_SIZE (context_dump session))
        | None => []
        end
    | None => fst (snprintf RESPONSE_SIZE (lit "ERROR: Session not found"))
    end).
Proof.
  intros Hr. unfold handle_client_request.
  rewrite request_text_nonempty by (rewrite Hr; discriminate).
  unfold request_text in Hr. unfold strcmp0, strncmp0. rewrite Hr.
  rewrite bool_decide_eq_false_2 by (vm_compute; discriminate).
  rewrite bool_decide_eq_true_2 by reflexivity.
  rewrite (find_session_cstr reg _ id); [reflexivity|].
  rewrite cstr_drop by (rewrite Hr, length_app; simpl; lia).
  rewrite Hr. simpl. symmetry. apply cstr_id.
  pose proof (cstr_nul_free (take (Z.to_nat (MAX_BUFFER_SIZE - 1)) incoming)) as N.
  rewrite Hr in N. unfold nul_free in N. rewrite Forall_app in N. apply N.
Qed.

(** C8. The answer of the server to what it reads as the request:
    [status] gives the count of tracked sessions ("OK: 0 sessions tracked"
    for the empty registry); [context:<id>] for an id that no entry has
    gives "ERROR: Session not found"; a request that is not [status], does
    not start with [context:] and is not [list] gives "ERROR: Unknown
    command"; and [list] with the single session "main" in "/home/u" gives
    "main (/home/u)" and a line feed. *)
Theorem protocol_responses :
  (forall incoming : list ascii,
     request_text incoming = lit "status" ->
     handle_client_request [] incoming = Some (lit "OK: 0 sessions tracked")) /\
  (forall (reg : list session_context_t) (incoming : list ascii),
     session_count reg <= MAX_SESSIONS ->
     request_text incoming = lit "status" ->
     handle_client_request reg incoming =
     Some (lit "OK: " ++ fmt_d (session_count reg) ++ lit " sessions tracked")) /\
  (forall (reg : list session_context_t) (incoming id : list ascii),
     request_text incoming = lit "context:" ++ id ->
     Forall (fun s => cstr (session_id s) <> cstr id) reg ->
     handle_client_request reg incoming =
     Some (lit "ERROR: Session not found")) /\
  (forall (reg : list session_context_t) (incoming : list ascii),
     incoming <> [] ->
     request_text incoming <> lit "status" ->
     take 8 (request_text incoming) <> lit "context:" ->
     request_text incoming <> lit "list" ->
     handle_client_request reg incoming =
     Some (lit "ERROR: Unknown command")) /\
  (forall (incoming pane text : list ascii) (activity len : Z),
     request_text incoming = lit "list" ->
     handle_client_request
       [mk_session (lit "main") (lit "/home/u") pane activity text len]
       incoming = Some (lit "main (/home/u)" ++ [LF])).
Proof.
  assert (Hstatus : forall (reg : list session_context_t) incoming,
            session_count reg <= MAX_SESSIONS ->
            request_text incoming = lit "status" ->
            handle_client_request reg incoming =
            Some (lit "OK: " ++ fmt_d (session_count reg)
                  ++ lit " sessions tracked")).
  { intros reg incoming Hc Hr. unfold handle_client_request.
    rewrite request_text_nonempty by (rewrite Hr; discriminate).
    unfold request_text in Hr. unfold strcmp0. rewrite Hr.
    rewrite bool_decide_eq_true_2 by reflexivity.
    unfold session_count in *. rewrite status_text; [reflexivity|].
    unfold MAX_SESSIONS in Hc. lia. }
  split; [|split; [|split; [|split]]].
  - intros incoming Hr. apply (Hstatus [] incoming); [|exact Hr].
    vm_compute. discriminate.
  - exact Hstatus.
  - intros reg incoming id Hr Hn. rewrite (context_dispatch reg incoming id Hr).
    apply find_session_None in Hn. rewrite Hn. reflexivity.
  - intros reg incoming Hne H1 H2 H3. unfold handle_client_request.
    rewrite incoming_nonempty by exact Hne.
    unfold request_text in *. unfold strcmp0, strncmp0.
    rewrite !bool_decide_eq_false_2; [reflexivity|exact H3|exact H2|exact H1].
  - intros incoming pane text activity len Hr.
    rewrite list_response; [reflexivity| |exact Hr].
    vm_compute. discriminate.
Qed.

(** C8 at the requests status, context:ghost, bogus and list. *)
Lemma protocol_responses_witness :
  handle_client_request [] (lit "status") = Some (lit "OK: 0 sessions tracked") /\
  handle_client_request full_registry (lit "status") =
    Some (lit "OK: 32 sessions tracked") /\
  handle_client_request full_registry (lit "context:ghost") =
    Some (lit "ERROR: Session not found") /\
  handle_client_request full_registry (lit "bogus") =
    Some (lit "ERROR: Unknown command") /\
  handle_client_request [main_session] (lit "list") =
    Some (lit "main (/home/u)" ++ [LF]).
Proof.
  destruct protocol_responses as (H1 & H2 & H3 & H4 & H5).
  split; [|split; [|split; [|split]]].
  - apply H1. reflexivity.
  - apply (H2 full_registry (lit "status")); [|reflexivity].
    vm_compute. discriminate.
  - apply (H3 full_registry (lit "context:ghost") (lit "ghost")); [reflexivity|].
    apply find_session_None. reflexivity.
  - apply H4; vm_compute; discriminate.
  - apply (H5 (lit "list")). reflexivity.
Defined.

(** ** C9: the [context:] dump *)

Lemma string_of_uint_nul_free (d : Decimal.uint) :
  nul_free (lit (NilEmpty.string_of_uint d)).
Proof.
  induction d; simpl; try (apply Forall_cons; split; [discriminate|assumption]).
  constructor.
Qed.

Lemma fmt_d_nul_free (z : Z) : nul_free (fmt_d z).
Proof.
  unfold fmt_d, NilZero.string_of_int, NilZero.string_of_uint.
  destruct (Z.to_int z) as [d|d]; [|apply Forall_cons; split; [discriminate|]];
    (destruct d; [repeat constructor; discriminate|..];
     apply string_of_uint_nul_free).
Qed.

Lemma context_dump_nul_free (s : session_context_t) :
  nul_free (context_dump s).
Proof.
  unfold context_dump.
  repeat first
    [ apply cstr_nul_free | apply fmt_d_nul_free | apply nul_free_app
    | (apply Forall_cons; split; [discriminate|]) | apply Forall_nil_2 ].
Qed.




(** ** C10: the order of the [list] response

    The amended statement rests on the invariant of the scanner and is
    proved in the last part, on the lines of the [list] response. *)



(** * Further properties of the daemon *)

(** ** Splitting text *)

Lemma strchr_Some (s : list ascii) (c : ascii) (a b : list ascii) :
  strchr s c = Some (a, b) ->
  s = a ++ c :: b /\ Forall (fun x => x <> c) a.
Proof.
  revert a. induction s as [|x r IH]; intros a; simpl; [discriminate|].
  destruct (Ascii.eqb_spec x c) as [->|Hne].
  - intros [= <- <-]. split; [reflexivity|constructor].
  - destruct (strchr r c) as [[a' b']|]; [|discriminate].
    intros [= <- <-]. destruct (IH a' eq_refl) as [-> Hf].
    split; [reflexivity|]. now constructor.
Qed.

Lemma strchr_None (s : list ascii) (c : ascii) :
  strchr s c = None <-> Forall (fun x => x <> c) s.
Proof.
  induction s as [|x r IH]; simpl.
  - split; [constructor|reflexivity].
  - destruct (Ascii.eqb_spec x c) as [->|Hne].
    + split; [discriminate|]. intros H. inversion H. congruence.
    + destruct (strchr r c) as [[a b]|].
      * split; [discriminate|]. intros H. inversion H; subst.
        now apply IH in H3.
      * split; [|reflexivity]. intros _. constructor; [exact Hne|].
        now apply IH.
Qed.

Lemma strchr_app (a b : list ascii) (c : ascii) :
  Forall (fun x => x <> c) a -> strchr (a ++ c :: b) c = Some (a, b).
Proof.
  induction 1 as [|x r Hx _ IH]; simpl.
  - now rewrite Ascii.eqb_refl.
  - destruct (Ascii.eqb_spec x c); [contradiction|]. now rewrite IH.
Qed.

Lemma skip_lf_suffix (s : list ascii) : skip_lf s `suffix_of` s.
Proof.
  induction s as [|c r IH]; simpl; [reflexivity|].
  destruct (Ascii.eqb c LF); [now apply suffix_cons_r|reflexivity].
Qed.

Lemma nul_free_suffix (a b : list ascii) :
  a `suffix_of` b -> nul_free b -> nul_free a.
Proof.
  intros [k ->] H. unfold nul_free in *. now apply Forall_app in H as [_ H].
Qed.

(** A line handed out by [strtok] is not empty and has no line feed; it
    and the text left over have no NUL when the text had none. *)
Lemma strtok_line (s : option (list ascii)) (olds : list ascii) :
  let s0 := match s with Some x => cstr x | None => olds end in
  match strtok s olds with
  | (Some t, r) =>
      t <> [] /\ lf_free t /\ (nul_free s0 -> nul_free t /\ nul_free r)
  | (None, r) => r = []
  end.
Proof.
  intros s0. unfold strtok. fold s0.
  pose proof (skip_lf_suffix s0) as Hs.
  destruct (skip_lf s0) as [|c r] eqn:E; [reflexivity|].
  pose proof (skip_lf_head _ _ _ E) as Hc.
  destruct (strchr (c :: r) LF) as [[a b]|] eqn:S.
  - apply strchr_Some in S as [Heq Hlf]. split; [|split; [exact Hlf|]].
    + intros ->. simpl in Heq. injection Heq as -> _.
      now rewrite Ascii.eqb_refl in Hc.
    + intros Hn. apply (nul_free_suffix _ _ Hs) in Hn. rewrite Heq in Hn.
      unfold nul_free in *. apply Forall_app in Hn as [Ha Hb].
      split; [exact Ha|]. now inversion Hb.
  - apply strchr_None in S. split; [discriminate|]. split; [exact S|].
    intros Hn. split; [now apply (nul_free_suffix _ _ Hs)|constructor].
Qed.

(** ** What the engine leaves alone *)

Lemma same_header_refl (s : session_context_t) : same_header s s.
Proof. repeat split. Qed.

Lemma same_header_trans (a b c : session_context_t) :
  same_header a b -> same_header b c -> same_header a c.
Proof.
  unfold same_header. intros (A1 & A2 & A3 & A4) (B1 & B2 & B3 & B4).
  repeat split; congruence.
Qed.

Section EngineFrame.

Variable World : Type.
Variable popen : World -> list ascii -> option process * World.

Local Abbreviation capture_active := (capture_active World popen).
Local Abbreviation pane_step := (pane_step World popen).
Local Abbreviation pane_lines := (pane_lines World popen).
Local Abbreviation pane_loop := (pane_loop World popen).
Local Abbreviation engine_on_lines := (engine_on_lines World popen).
Local Abbreviation capture_all_panes := (capture_all_panes World popen).

Lemma capture_active_header (s : session_context_t) (w : World) :
  same_header s (fst (capture_active s w)).
Proof.
  unfold capture_active. destruct (popen w _) as [[fp|] w'];
    repeat split.
Qed.

Lemma pane_step_header (line : list ascii) (s : session_context_t) (pc : Z)
  (w : World) :
  same_header s (fst (fst (pane_step line (s, pc, w)))).
Proof.
  rewrite pane_step_unfold. destruct (self_excluded _); [repeat split|].
  destruct (popen w _) as [[fp|] w']; [|repeat split]. cbv zeta.
  destruct (10 <? _); [|repeat split]. cbn [fst].
  pose proof (append_pane_fields s (line_pane_id line) (line_title line)
    (take (Z.to_nat (MAX_BUFFER_SIZE - 1)) (p_stdout fp))
    (Z.of_nat (length (take (Z.to_nat (MAX_BUFFER_SIZE - 1)) (p_stdout fp)))))
    as H.
  exact H.
Qed.

Lemma pane_lines_header (lines : list (list ascii)) (s : session_context_t)
  (pc : Z) (w : World) :
  same_header s (fst (fst (pane_lines lines (s, pc, w)))).
Proof.
  revert s pc w. induction lines as [|l ls IH]; intros s pc w.
  - apply same_header_refl.
  - rewrite pane_lines_cons. cbn [fst].
    destruct (pane_loop_cond s); [|apply same_header_refl].
    pose proof (pane_step_header l s pc w) as H.
    destruct (pane_step l (s, pc, w)) as [[s' pc'] w'].
    eapply same_header_trans; [exact H|apply IH].
Qed.

Lemma engine_on_lines_header (s : session_context_t) (w : World)
  (lines : list (list ascii)) :
  same_header s (fst (engine_on_lines s w lines)).
Proof.
  unfold engine_on_lines.
  pose proof (pane_lines_header lines (set_scrollback s [] 0) 0 w) as H.
  destruct (pane_lines lines _) as [[s' pc] w']. cbn [fst] in H.
  assert (H0 : same_header s s') by exact H.
  destruct (pc =? 0); [|exact H0].
  eapply same_header_trans; [exact H0|apply capture_active_header].
Qed.

Lemma capture_all_panes_header (s : session_context_t) (w : World)
  (olds : list ascii) :
  same_header s (snd (fst (fst (capture_all_panes s w olds)))).
Proof.
  pose proof (capture_all_panes_spec World popen s w olds) as H.
  destruct (popen w _) as [[fp|] w1].
  - destruct H as [_ H]. apply (f_equal fst) in H. cbn [fst] in H.
    rewrite H. apply engine_on_lines_header.
  - rewrite H. repeat split.
Qed.

(** The text [strtok] is left with has no NUL. *)
Lemma pane_loop_olds (fuel : nat) (line : option (list ascii))
  (olds : list ascii) (st : session_context_t * Z * World) :
  nul_free olds -> nul_free (snd (fst (pane_loop fuel line olds st))).
Proof.
  revert line olds st. induction fuel as [|fuel IH]; intros line olds st H;
    [exact H|].
  cbn. destruct line as [l|]; [|exact H].
  destruct (pane_loop_cond _); [|exact H].
  pose proof (strtok_line None olds) as HS. cbv zeta in HS.
  destruct (strtok None olds) as [[t|] r].
  - apply IH. now apply HS.
  - apply IH. subst r. constructor.
Qed.

Lemma capture_all_panes_olds (s : session_context_t) (w : World)
  (olds : list ascii) :
  nul_free olds -> nul_free (snd (fst (capture_all_panes s w olds))).
Proof.
  intros H. unfold capture_all_panes.
  destruct (execute_tmux_command _ _ _ _ _ _) as [[rc pane_list] w1].
  destruct rc; try exact H.
  destruct (strlen pane_list =? 0)%nat.
  - destruct (capture_active _ _) as [s' w2]. exact H.
  - pose proof (strtok_line (Some pane_list) olds) as HS. cbv zeta in HS.
    destruct (strtok (Some pane_list) olds) as [line olds1].
    assert (H1 : nul_free olds1).
    { destruct line; [apply HS, cstr_nul_free|subst olds1; constructor]. }
    pose proof (pane_loop_olds (S (length pane_list)) line olds1
                  (set_scrollback s [] 0, 0, w1) H1) as H2.
    destruct (pane_loop _ _ _ _) as [[line' olds2] [[s' pc] w2]].
    cbn [fst snd] in H2. destruct (pc =? 0); [|exact H2].
    destruct (capture_active s' w2) as [s'' w3]. exact H2.
Qed.

End EngineFrame.

(** ** The refresh of one session *)

Lemma buffer_size_range : 0 < MAX_BUFFER_SIZE < SIZE_MAX1.
Proof. vm_compute. split; reflexivity. Qed.

Section Refresh.

Variable World : Type.
Variable popen : World -> list ascii -> option process * World.
Variable time : World -> Z * World.

Local Abbreviation capture_all_panes := (capture_all_panes World popen).
Local Abbreviation update_session_context :=
  (update_session_context World popen time).
Local Abbreviation queried := (queried World popen).
Local Abbreviation after_queries := (after_queries World popen).

(** The refresh, with its three stages in a row: the two queries, the
    engine, the clock. *)
Lemma update_session_context_spec (s : session_context_t) (w : World)
  (olds : list ascii) :
  let sid := session_id s in
  let w1 := snd (popen w (pane_cmd_of_session sid)) in
  let s2 :=
    mk_session sid
      (queried w1 (cwd_cmd_of_session sid) (current_cwd s)
               (Z.to_nat (PATH_MAX - 1)))
      (queried w (pane_cmd_of_session sid) (current_pane s) 15)
      (last_activity s) (scrollback s) (scrollback_len s) in
  let r := capture_all_panes s2 (after_queries w sid) olds in
  let s3 := snd (fst (fst r)) in
  update_session_context s w olds =
  (fst (fst (fst r)),
   mk_session (session_id s3) (current_cwd s3) (current_pane s3)
              (fst (time (snd r))) (scrollback s3) (scrollback_len s3),
   snd (fst r), snd (time (snd r))).
Proof.
  destruct s as [id cwd pane act sb len].
  intros sid w1 s2 r s3. unfold update_session_context.
  rewrite execute_tmux_command_spec by exact buffer_size_range.
  subst r s3 s2 w1 sid. unfold after_queries, queried.
  cbn [session_id current_cwd current_pane last_activity scrollback
       scrollback_len].
  destruct (popen w (pane_cmd_of_session id)) as [[fp1|] w1]; cbn [snd];
    cbn [session_id];
    rewrite execute_tmux_command_spec by exact buffer_size_range;
    (destruct (popen w1 (cwd_cmd_of_session id)) as [[fp2|] w2]; cbn [snd];
     cbn [session_id current_cwd current_pane last_activity scrollback
          scrollback_len];
     match goal with |- context [capture_all_panes ?x w2 olds] =>
       destruct (capture_all_panes x w2 olds) as [[[rc s3] olds'] w3] end;
     cbn [fst snd]; destruct (time w3) as [now w4]; reflexivity).
Qed.

Lemma queried_bounds (w : World) (cmd old : list ascii) (n : nat) :
  nul_free old -> (length old <= n)%nat ->
  nul_free (queried w cmd old n) /\ (length (queried w cmd old n) <= n)%nat.
Proof.
  intros Hn Hl. unfold queried. destruct (popen w cmd) as [[fp|] w'].
  - unfold strncpy. split; [apply nul_free_take, cstr_nul_free|].
    rewrite length_take. lia.
  - now split.
Qed.

Lemma update_session_context_ok (s : session_context_t) (w : World)
  (olds : list ascii) :
  entry_ok s -> entry_ok (snd (fst (fst (update_session_context s w olds)))).
Proof.
  intros (I1 & I2 & I3 & I4 & P1 & P2 & C1 & C2 & _).
  rewrite update_session_context_spec. cbv zeta. cbn [fst snd].
  match goal with |- context [capture_all_panes ?x ?y olds] =>
    pose proof (capture_all_panes_header World popen x y olds)
      as (H1 & H2 & H3 & _);
    pose proof (capture_all_panes_ok World popen x y olds) as HS;
    destruct (capture_all_panes x y olds) as [[[rc s3] olds'] w3] end.
  cbn [fst snd session_id current_cwd current_pane] in *.
  unfold entry_ok. cbn [session_id current_cwd current_pane].
  rewrite H1, H2, H3.
  destruct (queried_bounds w (pane_cmd_of_session (session_id s))
              (current_pane s) 15 P1 P2) as [Q1 Q2].
  assert (C2' : (length (current_cwd s) <= Z.to_nat (PATH_MAX - 1))%nat)
    by (unfold PATH_MAX in *; lia).
  destruct (queried_bounds
              (snd (popen w (pane_cmd_of_session (session_id s))))
              (cwd_cmd_of_session (session_id s))
              (current_cwd s) (Z.to_nat (PATH_MAX - 1)) C1 C2') as [Q3 Q4].
  repeat (split; [first [assumption|unfold PATH_MAX in *; lia]|]).
  exact HS.
Qed.

End Refresh.

(** A refresh of one session.  The id is kept.  The pane id and the directory become
    the start of what their query prints (15 and PATH_MAX - 1 bytes at
    most), or keep their old value when the query cannot be started.  The
    activity time is the clock read after the capture.  The returned code
    is that of the engine: ERROR_TMUX_CMD exactly when the pane listing
    cannot be started, ERROR_NONE otherwise. *)
Theorem refresh_updates_fields (World : Type)
  (popen : World -> list ascii -> option process * World)
  (time : World -> Z * World)
  (s : session_context_t) (w : World) (olds : list ascii) :
  let r := update_session_context World popen time s w olds in
  let s' := snd (fst (fst r)) in
  let sid := session_id s in
  let w1 := snd (popen w (pane_cmd_of_session sid)) in
  session_id s' = sid /\
  current_pane s' =
    queried World popen w (pane_cmd_of_session sid) (current_pane s) 15 /\
  current_cwd s' =
    queried World popen w1 (cwd_cmd_of_session sid) (current_cwd s)
            (Z.to_nat (PATH_MAX - 1)) /\
  (exists w3 : World, time w3 = (last_activity s', snd r)) /\
  scrollback_ok s' /\
  (fst (fst (fst r)) = ERROR_TMUX_CMD <->
   fst (popen (after_queries World popen w sid) (list_panes_cmd sid)) = None) /\
  (fst (fst (fst r)) = ERROR_NONE \/ fst (fst (fst r)) = ERROR_TMUX_CMD).
Proof.
  intros r s' sid w1. subst r s'.
  rewrite update_session_context_spec. cbv zeta. cbn [fst snd]. fold sid w1.
  set (s2 := mk_session sid _ _ _ _ _).
  pose proof (capture_all_panes_header World popen s2
                (after_queries World popen w sid) olds) as (H1 & H2 & H3 & _).
  pose proof (capture_all_panes_ok World popen s2
                (after_queries World popen w sid) olds) as HS.
  pose proof (capture_all_panes_spec World popen s2
                (after_queries World popen w sid) olds) as HP.
  change (session_id s2) with sid in HP.
  destruct (capture_all_panes World popen s2 _ olds)
    as [[[rc s3] olds'] w3].
  cbn [fst snd session_id current_cwd current_pane last_activity
       scrollback scrollback_len] in *.
  split; [exact H1|]. split; [exact H3|]. split; [exact H2|].
  split; [exists w3; now destruct (time w3)|]. split; [exact HS|].
  destruct (popen (after_queries World popen w sid) (list_panes_cmd sid))
    as [[fp|] w4]; cbn [fst].
  - destruct HP as [-> _]. split; [|now left]. split; discriminate.
  - injection HP as -> _ _ _. split; [|now right]. split; reflexivity.
Qed.

(** ** The scanner *)

Section ScannerProps.

Variable World : Type.
Variable popen : World -> list ascii -> option process * World.
Variable time : World -> Z * World.

Local Abbreviation update_session_context :=
  (update_session_context World popen time).
Local Abbreviation scan_step := (scan_step World popen time).
Local Abbreviation scan_loop := (scan_loop World popen time).
Local Abbreviation scan_tmux_sessions := (scan_tmux_sessions World popen time).
Local Abbreviation step := (step World popen time).
Local Abbreviation reachable := (reachable World popen time).

Lemma update_session_context_olds (s : session_context_t) (w : World)
  (olds : list ascii) :
  nul_free olds -> nul_free (snd (fst (update_session_context s w olds))).
Proof.
  intros H. rewrite update_session_context_spec. cbv zeta. cbn [fst snd].
  now apply capture_all_panes_olds.
Qed.

Lemma new_entry_ok (line : list ascii) (now : Z) :
  line <> [] -> lf_free line -> nul_free line ->
  entry_ok (mk_session (strncpy line 63) [] [] now [] 0).
Proof.
  intros Hne Hlf Hn. unfold entry_ok, strncpy.
  cbn [session_id current_cwd current_pane]. rewrite (cstr_id line Hn).
  split; [now apply nul_free_take|]. split; [now apply Forall_take|].
  split; [destruct line; [contradiction|discriminate]|].
  split; [rewrite length_take; lia|].
  split; [constructor|]. split; [simpl; lia|]. split; [constructor|].
  split; [vm_compute; discriminate|]. split; reflexivity.
Qed.

Lemma scan_step_ok (line : list ascii) (m : machine World) :
  line <> [] -> lf_free line -> nul_free line ->
  machine_ok m -> machine_ok (scan_step line m).
Proof.
  intros Hne Hlf Hn [HF HO]. unfold scan_step.
  destruct (find_session (g_state m) line) as [i|] eqn:F.
  - destruct (g_state m !! i) as [s|] eqn:L; [|now split].
    pose proof (update_session_context_ok World popen time s (world m)
                  (strtok_olds m)) as H1.
    pose proof (update_session_context_olds s (world m) (strtok_olds m) HO)
      as H2.
    destruct (update_session_context s _ _) as [[[rc s'] olds'] w'].
    cbn [fst snd] in *. split; cbn [g_state strtok_olds]; [|exact H2].
    apply Forall_insert; [exact HF|]. apply H1.
    rewrite Forall_forall in HF. apply HF. eapply list_elem_of_lookup_2, L.
  - unfold create_session_w.
    destruct (Z.geb_spec (session_count (g_state m)) MAX_SESSIONS) as [Hf|Hf];
      [now split|].
    destruct (time (world m)) as [now w'].
    rewrite create_session_free by exact Hf.
    rewrite lookup_app_r, Nat.sub_diag by lia. cbn [lookup list_lookup].
    pose proof (new_entry_ok line now Hne Hlf Hn) as HN.
    pose proof (update_session_context_ok World popen time _ w'
                  (strtok_olds m) HN) as H1.
    pose proof (update_session_context_olds
                  (mk_session (strncpy line 63) [] [] now [] 0) w'
                  (strtok_olds m) HO) as H2.
    destruct (update_session_context _ w' _) as [[[rc s'] olds'] w''].
    cbn [fst snd] in *. split; cbn [g_state strtok_olds]; [|exact H2].
    apply Forall_insert; [|exact H1].
    apply Forall_app. split; [exact HF|]. apply Forall_singleton. exact HN.
Qed.

Lemma scan_loop_ok (fuel : nat) (line : option (list ascii))
  (m : machine World) :
  (forall l, line = Some l -> l <> [] /\ lf_free l /\ nul_free l) ->
  machine_ok m -> machine_ok (snd (scan_loop fuel line m)).
Proof.
  revert line m. induction fuel as [|fuel IH]; intros line m Hl Hm;
    [exact Hm|].
  cbn. destruct line as [l|]; [|exact Hm].
  destruct (Hl l eq_refl) as (H1 & H2 & H3).
  pose proof (scan_step_ok l m H1 H2 H3 Hm) as [HF HO].
  pose proof (strtok_line None (strtok_olds (scan_step l m))) as HS.
  cbv zeta in HS.
  destruct (strtok None _) as [[t|] r].
  - destruct HS as (T1 & T2 & T3). destruct (T3 HO) as [T4 T5].
    apply IH; [intros l' [= <-]; now repeat split|now split].
  - apply IH; [discriminate|]. split; [exact HF|]. subst r. constructor.
Qed.

Lemma scan_tmux_sessions_ok (fuel : nat) (m : machine World) :
  machine_ok m -> machine_ok (snd (snd (scan_tmux_sessions fuel m))).
Proof.
  intros [HF HO]. unfold scan_tmux_sessions.
  destruct (execute_tmux_command _ _ _ _ _ _) as [[rc output] w1].
  destruct rc; try (split; assumption).
  pose proof (strtok_line (Some output) (strtok_olds m)) as HS.
  cbv zeta in HS.
  destruct (strtok (Some output) _) as [[t|] r].
  - destruct HS as (T1 & T2 & T3). destruct (T3 (cstr_nul_free output))
      as [T4 T5].
    apply scan_loop_ok; [intros l' [= <-]; now repeat split|now split].
  - apply scan_loop_ok; [discriminate|]. split; [exact HF|].
    subst r. constructor.
Qed.

Lemma steps_ok (m m' : machine World) :
  rtc step m m' -> machine_ok m -> machine_ok m'.
Proof.
  induction 1 as [m|m m1 m2 Hs _ IH]; intros H0; [exact H0|].
  apply IH. destruct Hs as [m fuel|m w'].
  - now apply scan_tmux_sessions_ok.
  - exact H0.
Qed.

Lemma reachable_ok (m : machine World) : reachable m -> machine_ok m.
Proof.
  intros [w H]. apply (steps_ok _ _ H). split; constructor.
Qed.

(** One line of the scan changes one slot at most: an entry stays as it
    is unless it is the one found for the line. *)
Lemma scan_step_frame (line : list ascii) (m : machine World) (j : nat)
  (s : session_context_t) :
  g_state m !! j = Some s ->
  find_session (g_state m) line <> Some j ->
  g_state (scan_step line m) !! j = Some s.
Proof.
  intros Hj Hne. unfold scan_step.
  destruct (find_session (g_state m) line) as [i|] eqn:F.
  - destruct (g_state m !! i) as [s0|] eqn:L; [|exact Hj].
    destruct (update_session_context s0 _ _) as [[[rc s'] olds'] w'].
    cbn [g_state]. rewrite list_lookup_insert_ne by congruence. exact Hj.
  - unfold create_session_w.
    destruct (Z.geb_spec (session_count (g_state m)) MAX_SESSIONS) as [Hf|Hf];
      [exact Hj|].
    destruct (time (world m)) as [now w'].
    rewrite create_session_free by exact Hf.
    rewrite lookup_app_r, Nat.sub_diag by lia. cbn [lookup list_lookup].
    destruct (update_session_context _ w' _) as [[[rc s'] olds'] w''].
    cbn [g_state]. apply lookup_lt_Some in Hj as Hlt.
    rewrite list_lookup_insert_ne by lia.
    rewrite lookup_app_l by exact Hlt. exact Hj.
Qed.

End ScannerProps.

(** In every state the daemon can reach, each entry fits the buffers of
    its slot: the id is one non-empty line of at most 63 characters, the
    pane id has at most 15, the directory at most PATH_MAX - 1, none holds
    a NUL, and the recorded scrollback length is the length of the text,
    below the capacity. *)
Theorem reachable_entries_fit_buffers (World : Type)
  (popen : World -> list ascii -> option process * World)
  (time : World -> Z * World) (m : machine World) :
  reachable World popen time m -> Forall entry_ok (g_state m).
Proof. intros H. now apply reachable_ok in H as [H _]. Qed.

(** At the registry two scans of the deep directory leave. *)
Lemma reachable_entries_fit_buffers_witness :
  Forall entry_ok
    (g_state (tmux_scan 8 (tmux_scan 8 (initial _ deep_world)))).
Proof.
  apply (reachable_entries_fit_buffers _ tmux_popen tmux_time).
  exists deep_world. eapply rtc_l; [apply step_scan|].
  apply rtc_once. apply step_scan.
Defined.

(** One line of the scan changes the slot found (or made) for the line
    and no other: every other entry is afterwards what it was, in its
    slot. *)
Theorem scan_step_changes_one_slot (World : Type)
  (popen : World -> list ascii -> option process * World)
  (time : World -> Z * World) (line : list ascii) (m : machine World)
  (j : nat) (s : session_context_t) :
  g_state m !! j = Some s ->
  find_session (g_state m) line <> Some j ->
  g_state (scan_step World popen time line m) !! j = Some s.
Proof. apply scan_step_frame. Qed.

(** At a table with "main" and "zz", for the line "main". *)
Lemma scan_step_changes_one_slot_witness :
  g_state (scan_step _ tmux_popen tmux_time (lit "main") two_entry_machine)
    !! 1%nat =
  Some (mk_session (lit "zz") (lit "/tmp") (lit "%3") 1700000000
                   (lit "zz screen") 9).
Proof.
  apply (scan_step_changes_one_slot _ tmux_popen tmux_time (lit "main")
           two_entry_machine 1).
  - reflexivity.
  - vm_compute. discriminate.
Defined.

(** A scan that finds no session.  When the listing command cannot be
    started the scan returns its error and touches nothing; when it starts
    and prints no line, the scan returns ERROR_NONE, leaves every entry as
    it is (sessions that are gone stay registered) and [strtok] with no
    text.  Whenever the command starts the scan returns ERROR_NONE,
    whatever the refreshes do. *)
Theorem scan_without_sessions (World : Type)
  (popen : World -> list ascii -> option process * World)
  (time : World -> Z * World) (fuel : nat) (m : machine World) :
  match popen (world m) list_sessions_cmd with
  | (None, w1) =>
      scan_tmux_sessions World popen time fuel m =
      (ERROR_TMUX_CMD, (None, mk_machine (g_state m) (strtok_olds m) w1))
  | (Some fp, w1) =>
      fst (scan_tmux_sessions World popen time fuel m) = ERROR_NONE /\
      (tokens (sessions_listing fp) = [] ->
       scan_tmux_sessions World popen time fuel m =
       (ERROR_NONE, (None, mk_machine (g_state m) [] w1)))
  end.
Proof.
  unfold scan_tmux_sessions.
  rewrite execute_tmux_command_spec by exact buffer_size_range.
  destruct (popen (world m) list_sessions_cmd) as [[fp|] w1]; [|reflexivity].
  set (output := chomp _).
  pose proof (strtok_spec (Some output) (strtok_olds m)) as HS.
  cbv zeta in HS.
  assert (EL : sessions_listing fp = cstr output) by reflexivity.
  destruct (strtok (Some output) _) as [[t|] r]; cbn [fst].
  - split; [reflexivity|]. intros E. destruct HS as [HS _].
    rewrite EL, HS in E. discriminate.
  - split; [reflexivity|]. intros _. destruct HS as [_ ->].
    destruct fuel; reflexivity.
Qed.

(** At the empty multiplexer, with two sessions registered. *)
Lemma scan_without_sessions_witness :
  scan_tmux_sessions _ tmux_popen tmux_time 8
    (mk_machine (g_state two_entry_machine) [] []) =
  (ERROR_NONE, (None, mk_machine (g_state two_entry_machine) [] [])).
Proof.
  pose proof (scan_without_sessions _ tmux_popen tmux_time 8
                (mk_machine (g_state two_entry_machine) [] [])) as H.
  cbn [world] in H.
  assert (P : tmux_popen [] list_sessions_cmd = (Some (mk_process [] 0), []))
    by reflexivity.
  rewrite P in H. destruct H as [_ H]. exact (H eq_refl).
Defined.

(** ** More on the pane capture engine *)

Section EngineMore.

Variable World : Type.
Variable popen : World -> list ascii -> option process * World.

Local Abbreviation capture_active := (capture_active World popen).
Local Abbreviation pane_step := (pane_step World popen).
Local Abbreviation pane_lines := (pane_lines World popen).
Local Abbreviation pane_loop := (pane_loop World popen).
Local Abbreviation capture_all_panes := (capture_all_panes World popen).

(** The loop ends at the end of the listing, with nothing left for
    [strtok], or at the reserve. *)
Lemma pane_loop_exit (fuel : nat) (line : option (list ascii))
  (olds : list ascii) (st : session_context_t * Z * World) :
  (line <> None -> (length olds < fuel)%nat) ->
  (line = None -> olds = []) ->
  (fst (fst (pane_loop fuel line olds st)) = None /\
   snd (fst (pane_loop fuel line olds st)) = []) \/
  pane_loop_cond (fst (fst (snd (pane_loop fuel line olds st)))) = false.
Proof.
  revert line olds st. induction fuel as [|fuel IH]; intros line olds st Hf Hn.
  - destruct line as [l|]; [|left; split; [reflexivity|now apply Hn]].
    exfalso. assert (length olds < 0)%nat by now apply Hf. lia.
  - cbn. destruct line as [l|]; [|left; split; [reflexivity|now apply Hn]].
    destruct (pane_loop_cond _) eqn:C; [|right; exact C].
    pose proof (strtok_spec None olds) as H1. cbv zeta in H1.
    pose proof (strtok_line None olds) as H2. cbv zeta in H2.
    destruct (strtok None olds) as [[t|] r].
    + apply IH; [|discriminate]. intros _. destruct H1 as [_ H1].
      assert (length olds < S fuel)%nat by now apply Hf. lia.
    + apply IH; [tauto|]. intros _. exact H2.
Qed.

Lemma pane_step_count (line : list ascii) (s : session_context_t) (pc : Z)
  (w : World) :
  (snd (fst (pane_step line (s, pc, w))) = pc /\
   fst (fst (pane_step line (s, pc, w))) = s) \/
  snd (fst (pane_step line (s, pc, w))) = pc + 1.
Proof.
  rewrite pane_step_unfold. destruct (self_excluded _); [now left|].
  destruct (popen w _) as [[fp|] w']; [|now left]. cbv zeta.
  destruct (10 <? _); [now right|now left].
Qed.

(** The counter never goes down, and the session is untouched as long as
    the counter has not moved. *)
Lemma pane_lines_count (lines : list (list ascii)) (s : session_context_t)
  (pc : Z) (w : World) :
  pc <= snd (fst (pane_lines lines (s, pc, w))) /\
  (snd (fst (pane_lines lines (s, pc, w))) = pc ->
   fst (fst (pane_lines lines (s, pc, w))) = s).
Proof.
  revert s pc w. induction lines as [|l ls IH]; intros s pc w.
  - cbn. split; [lia|reflexivity].
  - rewrite pane_lines_cons. cbn [fst].
    destruct (pane_loop_cond s); [|cbn; split; [lia|reflexivity]].
    pose proof (pane_step_count l s pc w) as H.
    destruct (pane_step l (s, pc, w)) as [[s1 pc1] w1]. cbn [fst snd] in H.
    destruct (IH s1 pc1 w1) as [I1 I2].
    destruct H as [[E1 E2]|E1]; subst pc1.
    + subst s1. now split.
    + split; [lia|]. intros E. lia.
Qed.

Lemma pane_lines_app (a b : list (list ascii))
  (st : session_context_t * Z * World) :
  pane_lines (a ++ b) st = pane_lines b (pane_lines a st).
Proof.
  revert st. induction a as [|l ls IH]; intros st; [reflexivity|].
  cbn [app]. rewrite !pane_lines_cons.
  destruct (pane_loop_cond (fst (fst st))) eqn:C; [apply IH|].
  symmetry. now apply pane_lines_stop.
Qed.

(** A pane line leaves the text that is there and writes after it. *)
Lemma pane_step_grows (line : list ascii) (s : session_context_t) (pc : Z)
  (w : World) :
  scrollback_ok s -> pane_loop_cond s = true ->
  scrollback s `prefix_of` scrollback (fst (fst (pane_step line (s, pc, w))))
  /\ scrollback_len s <= scrollback_len (fst (fst (pane_step line (s, pc, w)))).
Proof.
  intros [H1 H2] Hc. rewrite pane_step_unfold.
  destruct (self_excluded _); [split; [reflexivity|cbn; lia]|].
  destruct (popen w _) as [[fp|] w']; [|split; [reflexivity|cbn; lia]].
  cbv zeta. set (content := take _ (p_stdout fp)).
  destruct (Z.ltb_spec 10 (Z.of_nat (length content))) as [Hlong|];
    [|split; [reflexivity|cbn; lia]].
  cbn [fst].
  apply pane_loop_cond_spec in Hc;
    [|rewrite SIZE_MAX1_val; unfold MAX_BUFFER_SIZE in *; lia].
  destruct (parse_pane_line_bounds line) as [Hp Ht].
  pose proof (cstr_length (line_pane_id line)).
  pose proof (cstr_length (line_title line)).
  rewrite append_pane_spec; try assumption; try lia.
  2:{ intros E. rewrite E in Hlong. simpl in Hlong. lia. }
  cbn [scrollback scrollback_len set_scrollback].
  split; [now apply prefix_app_r|]. rewrite length_app. lia.
Qed.

Lemma pane_lines_grows (lines : list (list ascii)) (s : session_context_t)
  (pc : Z) (w : World) :
  scrollback_ok s ->
  scrollback s `prefix_of` scrollback (fst (fst (pane_lines lines (s, pc, w))))
  /\ scrollback_len s <= scrollback_len (fst (fst (pane_lines lines (s, pc, w)))).
Proof.
  revert s pc w. induction lines as [|l ls IH]; intros s pc w H.
  - split; [reflexivity|cbn; lia].
  - rewrite pane_lines_cons. cbn [fst].
    destruct (pane_loop_cond s) eqn:C; [|split; [reflexivity|cbn; lia]].
    pose proof (pane_step_grows l s pc w H C) as [G1 G2].
    pose proof (pane_step_ok World popen l s pc w H C) as Hok.
    destruct (pane_step l (s, pc, w)) as [[s1 pc1] w1]. cbn [fst] in *.
    destruct (IH s1 pc1 w1 Hok) as [I1 I2].
    split; [etrans; eassumption|lia].
Qed.

End EngineMore.

(** The engine reports one failure only.  When the pane listing cannot be
    started it returns ERROR_TMUX_CMD, with the scrollback emptied (what the
    last refresh stored is gone), [strtok] untouched and no other command
    run.  When the listing starts it returns ERROR_NONE, whatever becomes
    of the captures.  In both cases id, directory, pane id and activity
    time are left alone and the recorded length fits the text. *)
Theorem engine_reports_listing_failure_only (World : Type)
  (popen : World -> list ascii -> option process * World)
  (session : session_context_t) (w : World) (olds : list ascii) :
  let r := capture_all_panes World popen session w olds in
  same_header session (snd (fst (fst r))) /\
  scrollback_ok (snd (fst (fst r))) /\
  match popen w (list_panes_cmd (session_id session)) with
  | (None, w1) => r = (ERROR_TMUX_CMD, set_scrollback session [] 0, olds, w1)
  | (Some fp, w1) => fst (fst (fst r)) = ERROR_NONE
  end.
Proof.
  intros r. subst r.
  split; [apply capture_all_panes_header|].
  split; [apply capture_all_panes_ok|].
  pose proof (capture_all_panes_spec World popen session w olds) as H.
  destruct (popen w _) as [[fp|] w1]; [apply H|exact H].
Qed.

(** Within a run the loop only appends.  The run over a listing is the run
    over its first lines followed by the run over the rest, and what the
    first lines have stored is still there, unchanged, in front of what the
    rest adds; neither the recorded length nor the pane counter goes
    down. *)
Theorem pane_loop_only_appends (World : Type)
  (popen : World -> list ascii -> option process * World)
  (first rest : list (list ascii)) (s : session_context_t) (pc : Z)
  (w : World) :
  scrollback_ok s ->
  let st1 := pane_lines World popen first (s, pc, w) in
  let st2 := pane_lines World popen (first ++ rest) (s, pc, w) in
  st2 = pane_lines World popen rest st1 /\
  scrollback (fst (fst st1)) `prefix_of` scrollback (fst (fst st2)) /\
  scrollback_len (fst (fst st1)) <= scrollback_len (fst (fst st2)) /\
  pc <= snd (fst st1) <= snd (fst st2).
Proof.
  intros H st1 st2. subst st2. rewrite pane_lines_app. fold st1.
  split; [reflexivity|].
  pose proof (pane_lines_ok World popen first s pc w H) as Hok. fold st1 in Hok.
  pose proof (pane_lines_count World popen first s pc w) as [C1 _].
  fold st1 in C1. destruct st1 as [[s1 pc1] w1]. cbn [fst snd] in *.
  destruct (pane_lines_grows World popen rest s1 pc1 w1 Hok) as [G1 G2].
  destruct (pane_lines_count World popen rest s1 pc1 w1) as [C2 _].
  split; [exact G1|]. split; [exact G2|]. lia.
Qed.

(** At the listing of the UI pane and the editor pane. *)
Lemma pane_loop_only_appends_witness :
  let st1 :=
    pane_lines unit two_pane_popen [lit "0.1:vim:vim"] (main_session, 0, tt) in
  let st2 :=
    pane_lines unit two_pane_popen [lit "0.1:vim:vim"; lit "0.0:muxgeist:sh"]
      (main_session, 0, tt) in
  st2 = pane_lines unit two_pane_popen [lit "0.0:muxgeist:sh"] st1 /\
  scrollback (fst (fst st1)) `prefix_of` scrollback (fst (fst st2)) /\
  scrollback_len (fst (fst st1)) <= scrollback_len (fst (fst st2)) /\
  0 <= snd (fst st1) <= snd (fst st2).
Proof.
  apply (pane_loop_only_appends unit two_pane_popen [lit "0.1:vim:vim"]
           [lit "0.0:muxgeist:sh"] main_session 0 tt).
  split; reflexivity.
Defined.

(** The engine and the scanner share [strtok].  A run of the engine over a
    pane listing that is not empty leaves [strtok] with nothing when it
    ends below the reserve: the text the scanner was reading is forgotten.
    A scan step that leaves [strtok] with nothing is the last of its scan,
    whatever the list of sessions still held.  (An empty pane listing
    leaves [strtok] as it was.) *)
Theorem engine_takes_over_strtok :
  (forall (World : Type) popen (session : session_context_t) (w w1 : World)
          (olds : list ascii) (fp : process),
     popen w (list_panes_cmd (session_id session)) = (Some fp, w1) ->
     listing_of fp <> [] ->
     let r := capture_all_panes World popen session w olds in
     pane_loop_cond (snd (fst (fst r))) = true ->
     snd (fst r) = []) /\
  (forall (World : Type) popen (session : session_context_t) (w w1 : World)
          (olds : list ascii) (fp : process),
     popen w (list_panes_cmd (session_id session)) = (Some fp, w1) ->
     listing_of fp = [] ->
     snd (fst (capture_all_panes World popen session w olds)) = olds) /\
  (forall (World : Type) popen time (fuel : nat) (line : list ascii)
          (m : machine World),
     strtok_olds (scan_step World popen time line m) = [] ->
     scan_loop World popen time (S fuel) (Some line) m =
     (None, mk_machine (g_state (scan_step World popen time line m)) []
                       (world (scan_step World popen time line m)))).
Proof.
  split; [|split].
  - intros World popen session w w1 olds fp Hp Hne r Hc. subst r.
    revert Hc. unfold capture_all_panes.
    rewrite execute_tmux_command_spec by (rewrite SIZE_MAX1_val; lia).
    cbn [session_id set_scrollback]. rewrite Hp.
    change (Z.to_nat (2048 - 1)) with 2047%nat.
    set (pane_list := chomp (take 2047 (p_stdout fp))).
    assert (HL : listing_of fp = cstr pane_list) by reflexivity.
    unfold strlen. rewrite <- HL.
    destruct (Nat.eqb_spec (length (listing_of fp)) 0) as [Hz|Hz];
      [destruct (listing_of fp); [contradiction|discriminate]|].
    pose proof (strtok_spec (Some pane_list) olds) as H1. cbv zeta in H1.
    pose proof (strtok_line (Some pane_list) olds) as H2. cbv zeta in H2.
    pose proof (cstr_length pane_list) as Hlen.
    destruct (strtok (Some pane_list) olds) as [line olds1].
    set (st0 := (set_scrollback session [] 0, 0, w1)).
    assert (Hfuel : line <> None -> (length olds1 < S (length pane_list))%nat).
    { intros Hn. destruct line; [|contradiction]. destruct H1 as [_ H1]. lia. }
    assert (Hnone : line = None -> olds1 = []).
    { intros ->. exact H2. }
    pose proof (pane_loop_exit World popen (S (length pane_list)) line olds1
                  st0 Hfuel Hnone) as HE.
    pose proof (pane_loop_lines World popen (S (length pane_list)) line olds1
                  st0 Hfuel) as HP.
    pose proof (pane_lines_count World popen
                  (match line with Some l => l :: tokens olds1 | None => [] end)
                  (set_scrollback session [] 0) 0 w1) as [_ HC].
    fold st0 in HC. rewrite <- HP in HC.
    destruct (pane_loop World popen _ line olds1 st0)
      as [[line' olds2] [[s' pc] w2]].
    cbn [fst snd] in *.
    destruct (Z.eqb_spec pc 0) as [Hpc|Hpc].
    + destruct (capture_active World popen s' w2) as [s'' w3]. cbn [fst snd].
      intros _. destruct HE as [[_ HE]|HE]; [exact HE|].
      rewrite (HC Hpc) in HE. vm_compute in HE. discriminate.
    + cbn [fst snd]. intros Hc. destruct HE as [[_ HE]|HE]; [exact HE|].
      congruence.
  - intros World popen session w w1 olds fp Hp He. unfold capture_all_panes.
    rewrite execute_tmux_command_spec by (rewrite SIZE_MAX1_val; lia).
    cbn [session_id set_scrollback]. rewrite Hp.
    change (Z.to_nat (2048 - 1)) with 2047%nat.
    set (pane_list := chomp (take 2047 (p_stdout fp))).
    assert (HL : listing_of fp = cstr pane_list) by reflexivity.
    unfold strlen. rewrite <- HL, He. cbn [length Nat.eqb].
    destruct (capture_active World popen _ w1) as [s' w2]. reflexivity.
  - intros World popen time fuel line m H. cbn. rewrite H. cbn.
    destruct fuel; reflexivity.
Qed.

(** At the listing of two panes, and at the first session of a scan. *)
Lemma engine_takes_over_strtok_witness :
  snd (fst (capture_all_panes unit two_pane_popen main_session tt
              (lit "beta" ++ [LF] ++ lit "gamma"))) = [] /\
  scan_loop _ tmux_popen tmux_time 3 (Some (lit "main"))
    (mk_machine [] (lit "beta" ++ [LF] ++ lit "gamma") prompt_world) =
  (None,
   mk_machine
     (g_state (scan_step _ tmux_popen tmux_time (lit "main")
                 (mk_machine [] (lit "beta" ++ [LF] ++ lit "gamma")
                             prompt_world)))
     []
     (world (scan_step _ tmux_popen tmux_time (lit "main")
               (mk_machine [] (lit "beta" ++ [LF] ++ lit "gamma")
                           prompt_world)))).
Proof.
  destruct engine_takes_over_strtok as (H1 & _ & H3). split.
  - apply (H1 unit two_pane_popen main_session tt tt _ two_pane_listing).
    + reflexivity.
    + vm_compute. discriminate.
    + vm_compute. reflexivity.
  - apply (H3 _ tmux_popen tmux_time 2%nat). vm_compute. reflexivity.
Defined.

(** ** More on the registry *)

(** [find_session] is a lookup by exact match that returns the first slot:
    it returns nothing exactly when no entry has the id, and slot [i]
    exactly when entry [i] has the id and no entry in front of it has. *)
Theorem find_session_first_match (reg : list session_context_t)
  (id : list ascii) :
  (find_session reg id = None <->
   Forall (fun s => cstr (session_id s) <> cstr id) reg) /\
  (forall i : nat,
     find_session reg id = Some i <->
     exists s : session_context_t,
       reg !! i = Some s /\ cstr (session_id s) = cstr id /\
       forall (j : nat) (s' : session_context_t),
         (j < i)%nat -> reg !! j = Some s' ->
         cstr (session_id s') <> cstr id).
Proof.
  split; [apply find_session_None|]. intros i. split.
  - apply find_session_Some.
  - intros (s & Hs & Hid & Hfirst).
    destruct (find_session reg id) as [k|] eqn:F.
    + destruct (find_session_Some reg id k F) as (s0 & Hs0 & Hid0 & Hfirst0).
      f_equal. destruct (Nat.lt_trichotomy k i) as [Hlt|[->|Hgt]];
        [|reflexivity|].
      * exfalso. exact (Hfirst k s0 Hlt Hs0 Hid0).
      * exfalso. exact (Hfirst0 i s Hgt Hs Hid).
    + exfalso. apply find_session_None in F. rewrite Forall_forall in F.
      apply (F s); [|exact Hid]. eapply list_elem_of_lookup_2, Hs.
Qed.

(** At the table with "main" and "zz". *)
Lemma find_session_first_match_witness :
  find_session (g_state two_entry_machine) (lit "zz") = Some 1%nat /\
  find_session (g_state two_entry_machine) (lit "ghost") = None.
Proof.
  destruct (find_session_first_match (g_state two_entry_machine) (lit "zz"))
    as [_ H1].
  destruct (find_session_first_match (g_state two_entry_machine)
              (lit "ghost")) as [H2 _].
  split.
  - apply H1. eexists. split; [reflexivity|]. split; [reflexivity|].
    intros [|j] s' Hj Hl; [|lia]. injection Hl as <-. vm_compute. discriminate.
  - apply H2. repeat constructor; vm_compute; discriminate.
Defined.

(** At the id "main", created in the empty registry. *)
Lemma create_if_absent_found_again_witness :
  find_session [mk_session (lit "main") [] [] 5 [] 0] (lit "main")
    = Some 0%nat /\
  create_if_absent [mk_session (lit "main") [] [] 5 [] 0] (lit "main") 7 =
    (Some 0%nat, [mk_session (lit "main") [] [] 5 [] 0]).
Proof.
  apply (create_if_absent_found_again [] _ (lit "main") 5 7 0).
  - simpl. lia.
  - reflexivity.
Defined.

(** As long as every id fits the 63 characters of the id field, any run
    of createIfAbsent calls keeps the stored ids pairwise distinct. *)
Theorem create_all_short_ids_distinct (calls : list (list ascii * Z))
  (reg : list session_context_t) :
  Forall (fun c => (length (cstr (fst c)) <= 63)%nat) calls ->
  NoDup (session_id <$> reg) ->
  NoDup (session_id <$> create_all reg calls).
Proof.
  revert reg. induction calls as [|[id now] rest IH]; intros reg Hc Hn;
    [exact Hn|].
  apply Forall_cons in Hc as [H1 H2]. cbn [create_all]. apply IH; [exact H2|].
  now apply create_if_absent_NoDup.
Qed.

(** At the calls for "a", "b" and "a" again. *)
Lemma create_all_short_ids_distinct_witness :
  NoDup (session_id <$>
           create_all [] [(lit "a", 1); (lit "b", 2); (lit "a", 3)]).
Proof.
  apply create_all_short_ids_distinct.
  - repeat constructor; simpl; lia.
  - constructor.
Defined.

(** ** Pane lines and the self-exclusion test *)

Lemma is_prefix_spec (p s : list ascii) :
  is_prefix p s = true <-> exists b, s = p ++ b.
Proof.
  revert s. induction p as [|a p IH]; intros s; simpl.
  - split; [intros _; now exists s|reflexivity].
  - destruct s as [|c s]; [split; [discriminate|intros [b H]; discriminate]|].
    rewrite andb_true_iff, IH. split.
    + intros [E [b ->]]. apply Ascii.eqb_eq in E as ->. now exists b.
    + intros [b [= -> ->]]. split; [apply Ascii.eqb_refl|now exists b].
Qed.

Lemma strstr_spec (hay needle : list ascii) :
  strstr hay needle = true <-> occurs_in needle hay.
Proof.
  unfold occurs_in. induction hay as [|c r IH]; simpl.
  - rewrite orb_false_r, is_prefix_spec. split.
    + intros [b H]. now exists [], b.
    + intros (a & b & H). destruct a; [now exists b|discriminate].
  - rewrite orb_true_iff, is_prefix_spec, IH. split.
    + intros [[b H]|(a & b & ->)]; [now exists [], b|now exists (c :: a), b].
    + intros (a & b & H). destruct a as [|x a].
      * left. now exists b.
      * right. injection H as -> ->. now exists a, b.
Qed.

(** A pane is skipped exactly when "muxgeist", in these very letters,
    occurs in its title. *)
Theorem self_excluded_iff_substring (pane_title : list ascii) :
  self_excluded pane_title = true <-> occurs_in (lit "muxgeist") pane_title.
Proof. apply strstr_spec. Qed.

(** At a title with the word in its middle, and at one with a capital. *)
Lemma self_excluded_iff_substring_witness :
  self_excluded (lit "my muxgeist ui") = true /\
  ~ occurs_in (lit "muxgeist") (lit "Muxgeist").
Proof.
  split.
  - apply self_excluded_iff_substring. now exists (lit "my "), (lit " ui").
  - intros H. apply self_excluded_iff_substring in H. vm_compute in H.
    discriminate.
Defined.

(** A pane line is read back as it was written.  From "id:title:command"
    the parser gives the id, the title and the command, cut to 31, 63 and
    63 characters, when id and title hold no colon; without a second colon
    the rest is the title and the command is empty; without any colon the
    line is the id and the title is "shell". *)
Theorem parse_pane_line_round_trip :
  (forall id title command : list ascii,
     colon_free id -> colon_free title ->
     nul_free id -> nul_free title -> nul_free command ->
     parse_pane_line (id ++ [COLON] ++ title ++ [COLON] ++ command) =
     (take 31 id, take 63 title, take 63 command)) /\
  (forall id title : list ascii,
     colon_free id -> colon_free title -> nul_free id -> nul_free title ->
     parse_pane_line (id ++ [COLON] ++ title) = (take 31 id, take 63 title, [])) /\
  (forall line : list ascii,
     colon_free line -> nul_free line ->
     parse_pane_line line = (take 31 line, lit "shell", [])).
Proof.
  unfold colon_free, parse_pane_line, strncpy. split; [|split].
  - intros id title command Ci Ct Ni Nt Nc. cbn [app].
    rewrite (strchr_app id _ COLON Ci), (strchr_app title _ COLON Ct).
    now rewrite !cstr_id.
  - intros id title Ci Ct Ni Nt. cbn [app].
    rewrite (strchr_app id _ COLON Ci).
    apply strchr_None in Ct. rewrite Ct. now rewrite !cstr_id.
  - intros line Cl Nl. apply strchr_None in Cl. rewrite Cl.
    now rewrite cstr_id.
Qed.

(** At the lines of a listing. *)
Lemma parse_pane_line_round_trip_witness :
  parse_pane_line (lit "0.1:vim:vim") = (lit "0.1", lit "vim", lit "vim") /\
  parse_pane_line (lit "0.1:vim") = (lit "0.1", lit "vim", []) /\
  parse_pane_line (lit "0.1") = (lit "0.1", lit "shell", []).
Proof.
  destruct parse_pane_line_round_trip as (H1 & H2 & H3).
  split; [|split].
  - apply (H1 (lit "0.1") (lit "vim") (lit "vim"));
      repeat constructor; discriminate.
  - apply (H2 (lit "0.1") (lit "vim")); repeat constructor; discriminate.
  - apply (H3 (lit "0.1")); repeat constructor; discriminate.
Defined.

(** ** More on the request server *)

Lemma list_loop_bound (reg : list session_context_t) (response : list ascii) :
  nul_free response ->
  Z.of_nat (length response) <= MAX_BUFFER_SIZE - 1 ->
  nul_free (list_loop reg response) /\
  Z.of_nat (length (list_loop reg response)) <= MAX_BUFFER_SIZE - 1.
Proof.
  revert response. induction reg as [|s r IH]; intros response Hn Hl;
    [now split|].
  cbn [list_loop]. unfold MAX_BUFFER_SIZE in Hl.
  unfold strncat, strlen. rewrite !cstr_id by assumption.
  rewrite (size_sub_small MAX_BUFFER_SIZE)
    by (unfold MAX_BUFFER_SIZE; rewrite SIZE_MAX1_val; lia).
  rewrite size_sub_small
    by (unfold MAX_BUFFER_SIZE; rewrite SIZE_MAX1_val; lia).
  apply IH.
  - apply nul_free_app; [exact Hn|]. apply nul_free_take, cstr_nul_free.
  - rewrite length_app, length_take. unfold MAX_BUFFER_SIZE. lia.
Qed.

Lemma response_room : Z.of_nat (RESPONSE_SIZE - 1) = MAX_BUFFER_SIZE - 1.
Proof.
  unfold RESPONSE_SIZE. rewrite Nat2Z.inj_sub.
  - rewrite Z2Nat.id; [reflexivity|]. unfold MAX_BUFFER_SIZE. lia.
  - apply Nat2Z.inj_le. rewrite Z2Nat.id; unfold MAX_BUFFER_SIZE; lia.
Qed.

Lemma snprintf_length (size : nat) (text : list ascii) :
  (length (cstr (fst (snprintf size text))) <= size - 1)%nat.
Proof.
  pose proof (cstr_length (fst (snprintf size text))) as H.
  unfold snprintf in *. cbn [fst] in *. rewrite length_take in H. lia.
Qed.

Lemma snprintf_response_length (text : list ascii) :
  Z.of_nat (length (cstr (fst (snprintf RESPONSE_SIZE text))))
  <= MAX_BUFFER_SIZE - 1.
Proof.
  rewrite <- response_room. apply Nat2Z.inj_le, snprintf_length.
Qed.

(** The server answers every read that brings at least one byte, and only
    those; an answer has at most 16383 bytes, the room of the response
    buffer, and no NUL, whatever the request and the registry. *)
Theorem server_answer_bounded (reg : list session_context_t)
  (incoming : list ascii) :
  (handle_client_request reg incoming = None <-> incoming = []) /\
  (forall response : list ascii,
     handle_client_request reg incoming = Some response ->
     Z.of_nat (length response) <= MAX_BUFFER_SIZE - 1 /\
     nul_free response).
Proof.
  split.
  - unfold handle_client_request. destruct incoming as [|c r].
    + rewrite take_nil. split; reflexivity.
    + rewrite incoming_nonempty by discriminate. split; discriminate.
  - intros response. unfold handle_client_request.
    destruct (_ <=? 0); [discriminate|]. intros E.
    apply (inj Some) in E. subst response.
    split; [|apply cstr_nul_free].
    destruct (strcmp0 _ (lit "status")); [apply snprintf_response_length|].
    destruct (strncmp0 _ _ 8).
    { destruct (find_session reg _) as [i|];
        [|apply snprintf_response_length].
      destruct (reg !! i); [apply snprintf_response_length|].
      vm_compute. discriminate. }
    destruct (strcmp0 _ (lit "list")); [|apply snprintf_response_length].
    destruct (list_loop_bound reg []) as [_ H];
      [constructor|vm_compute; discriminate|].
    pose proof (cstr_length (list_loop reg [])). lia.
Qed.

(** At the full table, asked for its list. *)
Lemma server_answer_bounded_witness :
  handle_client_request full_registry [] = None /\
  exists response : list ascii,
    handle_client_request full_registry (lit "list") = Some response /\
    Z.of_nat (length response) <= MAX_BUFFER_SIZE - 1 /\
    nul_free response.
Proof.
  split.
  - apply (server_answer_bounded full_registry []). reflexivity.
  - destruct (handle_client_request full_registry (lit "list"))
      as [response|] eqn:E.
    + exists response. split; [reflexivity|].
      apply (server_answer_bounded full_registry (lit "list")). exact E.
    + apply (server_answer_bounded full_registry (lit "list")) in E.
      discriminate.
Defined.

(** * The client *)

Lemma build_command_bounds (argv : list (list ascii)) :
  nul_free (Client.build_command argv) /\
  (length (Client.build_command argv) <= 255)%nat.
Proof.
  unfold Client.build_command, snprintf, strncpy. cbn [fst].
  destruct (_ && _).
  - split.
    + apply nul_free_take, nul_free_app; [|apply cstr_nul_free].
      repeat constructor; discriminate.
    + rewrite length_take. lia.
  - split; [apply nul_free_take, cstr_nul_free|rewrite length_take; lia].
Qed.

(** The exit status tells transport failures only.  The client exits with
    0 exactly when it is given a command and socket, connect, send and recv
    all succeed, whatever the answer says, and with 1 otherwise; on
    success it prints the answer, at most its first 8191 bytes and up to
    its first NUL, and a line feed; on a transport failure it prints
    nothing on standard output. *)
Theorem client_exit_status (t : Client.transport)
  (argv : list (list ascii)) :
  (fst (Client.main t argv) = 0 <->
   (2 <= length argv)%nat /\
   Client.socket_ok t = true /\ Client.connect_ok t = true /\
   Client.send_ok t = true /\
   Client.pending t (Client.build_command argv) <> None) /\
  (fst (Client.main t argv) = 0 \/ fst (Client.main t argv) = 1) /\
  (forall answer : list ascii,
     (2 <= length argv)%nat ->
     Client.socket_ok t = true -> Client.connect_ok t = true ->
     Client.send_ok t = true ->
     Client.pending t (Client.build_command argv) = Some answer ->
     Client.main t argv =
     (0, cstr (take (Z.to_nat (Client.MAX_BUFFER_SIZE - 1)) answer) ++ [LF])) /\
  ((2 <= length argv)%nat -> fst (Client.main t argv) = 1 ->
   snd (Client.main t argv) = []).
Proof.
  destruct (build_command_bounds argv) as [Hn _].
  unfold Client.main, Client.send_command.
  rewrite (cstr_id _ Hn).
  destruct (Z.ltb_spec (Z.of_nat (length argv)) 2) as [Ha|Ha].
  { cbn [fst snd]. split; [split; [discriminate|lia]|].
    split; [now right|]. split; [lia|lia]. }
  destruct (Client.socket_ok t), (Client.connect_ok t), (Client.send_ok t);
    cbn [negb fst snd];
    try (split; [split; [discriminate|intros (_ & ? & ? & ? & _); discriminate]|];
         split; [now right|]; split; [discriminate|reflexivity]).
  destruct (Client.pending t (Client.build_command argv)) as [bytes|];
    cbn [fst snd].
  - split; [split; [intros _; repeat split; try lia; discriminate|reflexivity]|].
    split; [now left|]. split; [|discriminate].
    intros answer _ _ _ _ [= ->]. reflexivity.
  - split; [split; [discriminate|intros (_ & _ & _ & _ & H); contradiction]|].
    split; [now right|]. split; [discriminate|reflexivity].
Qed.

Lemma client_exit_status_witness :
  Client.main (daemon_transport []) [lit "muxgeist-client"; lit "bogus"] =
  (0, lit "ERROR: Unknown command" ++ [LF]) /\
  fst (Client.main (Client.mk_transport true false true (fun _ => None))
         [lit "muxgeist-client"; lit "status"]) = 1.
Proof.
  split.
  - destruct (client_exit_status (daemon_transport [])
                [lit "muxgeist-client"; lit "bogus"]) as (_ & _ & H & _).
    apply (H (lit "ERROR: Unknown command")); reflexivity.
  - destruct (client_exit_status
                (Client.mk_transport true false true (fun _ => None))
                [lit "muxgeist-client"; lit "status"]) as (H & [H0|H1] & _).
    + apply H in H0 as (_ & _ & H0 & _). discriminate.
    + exact H1.
Defined.

(** The wire form of a command line.  [context <id>], with exactly these
    two arguments, becomes "context:<id>"; any other command line sends its
    first argument as it is, in particular [context] without an id or with
    more than one.  What is sent has no more than 255 bytes: a longer
    command or id is cut. *)
Theorem client_wire_form :
  (forall argv : list (list ascii),
     nul_free (Client.build_command argv) /\
     (length (Client.build_command argv) <= 255)%nat) /\
  (forall prog id : list ascii,
     Client.build_command [prog; lit "context"; id] =
     lit "context:" ++ take 247 (cstr id)) /\
  (forall (prog arg : list ascii) (rest : list (list ascii)),
     cstr arg <> lit "context" \/ length rest <> 1%nat ->
     Client.build_command (prog :: arg :: rest) = take 255 (cstr arg)).
Proof.
  split; [apply build_command_bounds|]. split.
  - intros prog id. reflexivity.
  - intros prog arg rest H. unfold Client.build_command, strncpy.
    change ((prog :: arg :: rest) !! 1%nat) with (Some arg).
    change (default [] (Some arg)) with arg.
    change (length (prog :: arg :: rest)) with (S (S (length rest))).
    destruct (strcmp0 arg (lit "context")) eqn:E; cbn [andb]; [|reflexivity].
    apply strcmp0_true in E. destruct H as [H|H]; [contradiction|].
    destruct (Z.eqb_spec (Z.of_nat (S (S (length rest)))) 3); [lia|reflexivity].
Qed.

Lemma client_wire_form_witness :
  Client.build_command [lit "muxgeist-client"; lit "context"] = lit "context"
  /\
  Client.build_command [lit "muxgeist-client"; lit "context"; lit "a"; lit "b"]
  = lit "context" /\
  Client.build_command [lit "muxgeist-client"; lit "context"; lit "main"]
  = lit "context:main".
Proof.
  destruct client_wire_form as (_ & H2 & H3). split; [|split].
  - apply (H3 _ (lit "context") []). right. simpl. lia.
  - apply (H3 _ (lit "context") [lit "a"; lit "b"]). right. simpl. lia.
  - apply (H2 (lit "muxgeist-client") (lit "main")).
Defined.

(** ** The client against the daemon *)

Lemma default_Some (x : list ascii) : default [] (Some x) = x.
Proof. reflexivity. Qed.

Lemma request_text_small (x : list ascii) :
  nul_free x -> (length x <= 255)%nat -> request_text x = x.
Proof.
  intros Hn Hl. unfold request_text. rewrite take_ge; [now apply cstr_id|].
  unfold MAX_BUFFER_SIZE. lia.
Qed.

Lemma status_response (reg : list session_context_t) (incoming : list ascii) :
  session_count reg <= MAX_SESSIONS ->
  request_text incoming = lit "status" ->
  handle_client_request reg incoming =
  Some (lit "OK: " ++ fmt_d (session_count reg) ++ lit " sessions tracked").
Proof.
  intros Hc Hr. unfold handle_client_request.
  rewrite request_text_nonempty by (rewrite Hr; discriminate).
  unfold request_text in Hr. unfold strcmp0. rewrite Hr.
  rewrite bool_decide_eq_true_2 by reflexivity.
  unfold session_count in *. rewrite status_text; [reflexivity|].
  unfold MAX_SESSIONS in Hc. lia.
Qed.

Lemma status_text_client (n : nat) :
  (n <= 32)%nat ->
  let text := lit "OK: " ++ fmt_d (Z.of_nat n) ++ lit " sessions tracked" in
  cstr (take (Z.to_nat (Client.MAX_BUFFER_SIZE - 1)) text) = text.
Proof.
  intros H.
  do 33 (destruct n as [|n]; [vm_compute; reflexivity|]). lia.
Qed.

Lemma list_text_bounds (reg : list session_context_t) :
  nul_free (concat (session_info <$> reg)) /\
  (length (concat (session_info <$> reg)) <= 255 * length reg)%nat.
Proof.
  induction reg as [|s r [IH1 IH2]]; [split; [constructor|simpl; lia]|].
  cbn [fmap list_fmap concat]. split.
  - apply nul_free_app; [apply session_info_nul_free|exact IH1].
  - rewrite length_app. pose proof (session_info_length s). simpl. lia.
Qed.

Lemma text_in_client_buffer (text : list ascii) :
  nul_free text ->
  Z.of_nat (length text) <= Client.MAX_BUFFER_SIZE - 1 ->
  cstr (take (Z.to_nat (Client.MAX_BUFFER_SIZE - 1)) text) = text.
Proof.
  intros Hn Hl. rewrite take_ge by lia. now apply cstr_id.
Qed.

Lemma main_with_daemon (reg : list session_context_t)
  (argv : list (list ascii)) :
  (2 <= length argv)%nat ->
  Client.main (daemon_transport reg) argv =
  (0, cstr (take (Z.to_nat (Client.MAX_BUFFER_SIZE - 1))
              (default [] (handle_client_request reg
                             (Client.build_command argv)))) ++ [LF]).
Proof.
  intros Ha. destruct (build_command_bounds argv) as [Hn _].
  unfold Client.main, Client.send_command, daemon_transport.
  cbn [Client.socket_ok Client.connect_ok Client.send_ok Client.pending negb].
  destruct (Z.ltb_spec (Z.of_nat (length argv)) 2) as [H|H]; [lia|].
  rewrite (cstr_id _ Hn). reflexivity.
Qed.

(** The client and the daemon, end to end, for a registry within its
    capacity.  [status] prints the count line; [list] prints every piece of
    the list, which always fits the client's buffer; [context <id>] for an
    id of at most 247 bytes that no entry has prints "ERROR: Session not
    found"; [context] without an id prints "ERROR: Unknown command"; and
    [context <id>] for a registered id prints the dump of the first entry
    with that id cut to 8191 bytes, half of what the daemon can send.  The
    exit status is 0 in every case. *)
Theorem client_against_daemon (reg : list session_context_t)
  (prog : list ascii) :
  session_count reg <= MAX_SESSIONS ->
  Client.main (daemon_transport reg) [prog; lit "status"] =
    (0, lit "OK: " ++ fmt_d (session_count reg) ++ lit " sessions tracked"
        ++ [LF]) /\
  Client.main (daemon_transport reg) [prog; lit "list"] =
    (0, concat (session_info <$> reg) ++ [LF]) /\
  Client.main (daemon_transport reg) [prog; lit "context"] =
    (0, lit "ERROR: Unknown command" ++ [LF]) /\
  (forall id : list ascii,
     nul_free id -> (length id <= 247)%nat ->
     Forall (fun s => cstr (session_id s) <> cstr id) reg ->
     Client.main (daemon_transport reg) [prog; lit "context"; id] =
     (0, lit "ERROR: Session not found" ++ [LF])) /\
  (forall (id : list ascii) (i : nat) (s : session_context_t),
     nul_free id -> (length id <= 247)%nat ->
     find_session reg id = Some i -> reg !! i = Some s ->
     Client.main (daemon_transport reg) [prog; lit "context"; id] =
     (0, take (Z.to_nat (Client.MAX_BUFFER_SIZE - 1)) (context_dump s)
         ++ [LF])).
Proof.
  intros Hc.
  assert (Hctx : forall id : list ascii,
            nul_free id -> (length id <= 247)%nat ->
            Client.build_command [prog; lit "context"; id]
              = lit "context:" ++ id /\
            request_text (Client.build_command [prog; lit "context"; id])
              = lit "context:" ++ id).
  { intros id Hn Hl.
    assert (E : Client.build_command [prog; lit "context"; id]
                = lit "context:" ++ id).
    { change (Client.build_command [prog; lit "context"; id])
        with (lit "context:" ++ take 247 (cstr id)).
      rewrite (cstr_id id Hn), take_ge by lia. reflexivity. }
    split; [exact E|]. rewrite E. apply request_text_small.
    - apply nul_free_app; [repeat constructor; discriminate|exact Hn].
    - rewrite length_app. simpl. lia. }
  split; [|split; [|split; [|split]]].
  - rewrite main_with_daemon by (simpl; lia).
    change (Client.build_command [prog; lit "status"]) with (lit "status").
    rewrite status_response by (assumption || reflexivity).
    rewrite default_Some. unfold session_count in *.
    rewrite status_text_client by (unfold MAX_SESSIONS in Hc; lia).
    now rewrite <- !app_assoc.
  - rewrite main_with_daemon by (simpl; lia).
    change (Client.build_command [prog; lit "list"]) with (lit "list").
    rewrite list_response by (assumption || reflexivity). rewrite default_Some.
    destruct (list_text_bounds reg) as [Hn Hl].
    rewrite text_in_client_buffer; [reflexivity|exact Hn|].
    unfold session_count, MAX_SESSIONS, Client.MAX_BUFFER_SIZE in *. lia.
  - rewrite main_with_daemon by (simpl; lia). reflexivity.
  - intros id Hn Hl Hf. rewrite main_with_daemon by (simpl; lia).
    destruct (Hctx id Hn Hl) as [_ Hr].
    rewrite (context_dispatch reg _ id Hr).
    apply find_session_None in Hf. rewrite Hf. reflexivity.
  - intros id i s Hn Hl Hf Hs. rewrite main_with_daemon by (simpl; lia).
    destruct (Hctx id Hn Hl) as [_ Hr].
    rewrite (context_dispatch reg _ id Hr), Hf, Hs. rewrite default_Some.
    unfold snprintf. cbn [fst].
    pose proof (context_dump_nul_free s) as Hd.
    rewrite (cstr_id (take (RESPONSE_SIZE - 1) (context_dump s)))
      by now apply nul_free_take.
    rewrite take_take.
    replace (Z.to_nat (Client.MAX_BUFFER_SIZE - 1) `min` (RESPONSE_SIZE - 1))%nat
      with (Z.to_nat (Client.MAX_BUFFER_SIZE - 1))
      by (unfold Client.MAX_BUFFER_SIZE, RESPONSE_SIZE, MAX_BUFFER_SIZE; lia).
    rewrite cstr_id by now apply nul_free_take. reflexivity.
Qed.

(** At the registry that holds the session "main". *)
Lemma client_against_daemon_witness :
  Client.main (daemon_transport [main_session])
    [lit "muxgeist-client"; lit "status"] =
    (0, lit "OK: 1 sessions tracked" ++ [LF]) /\
  Client.main (daemon_transport [main_session])
    [lit "muxgeist-client"; lit "list"] =
    (0, lit "main (/home/u)" ++ [LF; LF]) /\
  Client.main (daemon_transport [main_session])
    [lit "muxgeist-client"; lit "context"; lit "ghost"] =
    (0, lit "ERROR: Session not found" ++ [LF]) /\
  Client.main (daemon_transport [main_session])
    [lit "muxgeist-client"; lit "context"; lit "main"] =
    (0, take (Z.to_nat (Client.MAX_BUFFER_SIZE - 1))
             (context_dump main_session) ++ [LF]).
Proof.
  assert (Hc : session_count [main_session] <= MAX_SESSIONS)
    by (vm_compute; discriminate).
  destruct (client_against_daemon [main_session] (lit "muxgeist-client") Hc)
    as (H1 & H2 & _ & H4 & H5).
  split; [exact H1|]. split; [exact H2|]. split.
  - apply (H4 (lit "ghost")).
    + repeat constructor; discriminate.
    + simpl. lia.
    + repeat constructor. vm_compute. discriminate.
  - apply (H5 (lit "main") 0%nat main_session).
    + repeat constructor; discriminate.
    + simpl. lia.
    + reflexivity.
    + reflexivity.
Defined.

(** ** What the server reads as the request *)

(** The server reads a request as a C string of at most 16383 bytes: two
    reads that are not empty and agree up to the first NUL within their
    first 16383 bytes get the same answer. *)
Theorem request_read_as_c_string (reg : list session_context_t)
  (a b : list ascii) :
  a <> [] -> b <> [] -> request_text a = request_text b ->
  handle_client_request reg a = handle_client_request reg b.
Proof.
  intros Ha Hb H. unfold handle_client_request.
  rewrite !incoming_nonempty by assumption.
  unfold request_text in H. unfold strcmp0, strncmp0. rewrite H.
  set (ba := take _ a) in *. set (bb := take _ b) in *.
  destruct (bool_decide (cstr bb = cstr (lit "status"))); [reflexivity|].
  destruct (bool_decide (take 8 (cstr bb) = take 8 (cstr (lit "context:"))))
    eqn:E; [|reflexivity].
  apply bool_decide_eq_true in E.
  assert (L : (8 <= length (cstr bb))%nat).
  { apply (f_equal length) in E. rewrite !length_take in E.
    change (length (cstr (lit "context:"))) with 8%nat in E. lia. }
  rewrite (find_session_cstr reg (drop 8 ba) (drop 8 bb)); [reflexivity|].
  rewrite !cstr_drop by (rewrite ?H; exact L). now rewrite H.
Qed.

(** At "status" followed by a NUL and more bytes. *)
Lemma request_read_as_c_string_witness :
  handle_client_request full_registry (lit "status" ++ NUL :: lit "junk") =
  handle_client_request full_registry (lit "status").
Proof.
  apply request_read_as_c_string; [discriminate|discriminate|reflexivity].
Defined.

(** At a first refresh of the session "main", whose pane shows a prompt. *)
Lemma refresh_updates_fields_witness :
  let r :=
    update_session_context _ tmux_popen tmux_time
      (mk_session (lit "main") [] [] 0 [] 0) prompt_world [] in
  session_id (snd (fst (fst r))) = lit "main" /\
  current_pane (snd (fst (fst r))) = lit "%0" /\
  current_cwd (snd (fst (fst r))) = lit "/home/u" /\
  fst (fst (fst r)) = ERROR_NONE.
Proof.
  intros r.
  destruct (refresh_updates_fields _ tmux_popen tmux_time
              (mk_session (lit "main") [] [] 0 [] 0) prompt_world [])
    as (H1 & H2 & H3 & _ & _ & H6 & H7).
  split; [exact H1|]. split; [exact H2|]. split; [exact H3|].
  destruct H7 as [H7|H7]; [exact H7|].
  apply H6 in H7. vm_compute in H7. discriminate.
Defined.

(** ** The ids a scan line leaves *)

(** One line of the scan leaves the stored ids as they are when the line
    is found or the table is full; otherwise it appends exactly one id,
    the first 63 characters of the line. *)
Theorem scan_line_keeps_or_appends_id (World : Type)
  (popen : World -> list ascii -> option process * World)
  (time : World -> Z * World) (line : list ascii) (m : machine World) :
  session_id <$> g_state (scan_step World popen time line m) =
  match find_session (g_state m) line with
  | Some _ => session_id <$> g_state m
  | None =>
      if session_count (g_state m) >=? MAX_SESSIONS
      then session_id <$> g_state m
      else (session_id <$> g_state m) ++ [take 63 (cstr line)]
  end.
Proof.
  rewrite scan_step_create_if_absent. unfold create_if_absent, create_session.
  destruct (find_session (g_state m) line); [reflexivity|].
  destruct (session_count (g_state m) >=? MAX_SESSIONS); [reflexivity|].
  cbn [snd]. now rewrite fmap_app.
Qed.

(** * The lines of the [list] response *)















(** A session in a directory whose name holds a line feed: the scan
    registers "main", and its piece of the [list] response has two line
    feeds, so the one session is spread over two lines. *)
Lemma list_response_one_session_two_lines :
  let m := tmux_scan 8 (initial _ two_line_cwd_world) in
  reachable _ tmux_popen tmux_time m /\
  session_id <$> g_state m = [lit "main"] /\
  current_cwd <$> g_state m = [two_line_cwd] /\
  handle_client_request (g_state m) (lit "list") =
    Some (lit "main (/tmp/a" ++ [LF] ++ lit "b)" ++ [LF]).
Proof.
  intros m. split; [|split; [|split]].
  - exists two_line_cwd_world. apply rtc_once. apply step_scan.
  - vm_compute. reflexivity.
  - vm_compute. reflexivity.
  - vm_compute. reflexivity.
Qed.

